(** * InboundAudioStream: the inbound audio jitter buffer of hifi

    A shallow embedding of [libraries/audio/src/InboundAudioStream.h].

    - From the header itself: its constants, the [Settings] class with its two
      constructors, the data members of [InboundAudioStream], and the member
      functions the header defines inline (three setters and the getters).
    - The member functions the header only declares have their bodies in
      [InboundAudioStream.cpp], and the classes of the members
      ([AudioRingBuffer], [SequenceNumberStats], the statistics classes) are
      declared in other headers; none of these files is among the sources.
      Each such definition is written from the specification and says so.
    - The second part of the file embeds the rest of the sources: the string
      functions of [PathUtils.cpp] and the member functions of
      [LoginDialog.cpp] and [AddressBarDialog.cpp], over a model of Qt's
      [QString].

    A stream is a record of its members; a member function is a function from
    the stream it is called on (and the clock, where it reads one) to the
    stream it leaves and its result.  C++ [int] and [quint64] values are
    carried as [Z]: the inline code of the header only stores and reads
    them. *)

From Stdlib Require Import ZArith QArith Qround List Bool Lia.
From Stdlib Require Ascii String.
Import ListNotations.
Local Open Scope Z_scope.

(** ** Constants (InboundAudioStream.h, lines 28-48) *)

Definition DESIRED_JITTER_BUFFER_FRAMES_PADDING : Z := 1.
Definition STATS_FOR_STATS_PACKET_WINDOW_SECONDS : Z := 30.

(** Modelled from the spec: [USECS_PER_SECOND] comes from a header that is not
    among the sources; the specification gives
    [FRAMES_AVAILABLE_STAT_WINDOW_USECS = 2,000,000 = 2 * USECS_PER_SECOND]. *)
Definition USECS_PER_SECOND : Z := 1000000.

Definition FRAMES_AVAILABLE_STAT_WINDOW_USECS : Z := 2 * USECS_PER_SECOND.
Definition INBOUND_RING_BUFFER_FRAME_CAPACITY : Z := 100.

Definition DEFAULT_MAX_FRAMES_OVER_DESIRED : Z := 10.
Definition DEFAULT_DYNAMIC_JITTER_BUFFERS : bool := true.
Definition DEFAULT_STATIC_DESIRED_JITTER_BUFFER_FRAMES : Z := 1.
Definition DEFAULT_USE_STDEV_FOR_JITTER_CALC : bool := false.
Definition DEFAULT_WINDOW_STARVE_THRESHOLD : Z := 3.
Definition DEFAULT_WINDOW_SECONDS_FOR_DESIRED_CALC_ON_TOO_MANY_STARVES : Z := 50.
Definition DEFAULT_WINDOW_SECONDS_FOR_DESIRED_REDUCTION : Z := 10.

(** ** class InboundAudioStream::Settings (lines 53-92) *)

Module Settings.

Record Settings : Type := Build {
  _maxFramesOverDesired : Z;
  _dynamicJitterBuffers : bool;
  _staticDesiredJitterBufferFrames : Z;
  _useStDevForJitterCalc : bool;
  _windowStarveThreshold : Z;
  _windowSecondsForDesiredCalcOnTooManyStarves : Z;
  _windowSecondsForDesiredReduction : Z
}.

(** [Settings()], lines 55-63: every member takes its DEFAULT_ constant. *)
Definition Settings0 : Settings := {|
  _maxFramesOverDesired := DEFAULT_MAX_FRAMES_OVER_DESIRED;
  _dynamicJitterBuffers := DEFAULT_DYNAMIC_JITTER_BUFFERS;
  _staticDesiredJitterBufferFrames := DEFAULT_STATIC_DESIRED_JITTER_BUFFER_FRAMES;
  _useStDevForJitterCalc := DEFAULT_USE_STDEV_FOR_JITTER_CALC;
  _windowStarveThreshold := DEFAULT_WINDOW_STARVE_THRESHOLD;
  _windowSecondsForDesiredCalcOnTooManyStarves :=
    DEFAULT_WINDOW_SECONDS_FOR_DESIRED_CALC_ON_TOO_MANY_STARVES;
  _windowSecondsForDesiredReduction := DEFAULT_WINDOW_SECONDS_FOR_DESIRED_REDUCTION
|}.

(** [Settings(int, bool, int, bool, int, int, int)], lines 65-75.  The seventh
    parameter is itself spelled [_windowSecondsForDesiredReduction] in the
    source; it is called [windowSecondsForDesiredReduction7] here because the
    member of that name is what the initialiser list writes.  The last
    initialiser reads the sixth parameter (line 74). *)
Definition Settings7
    (maxFramesOverDesired : Z) (dynamicJitterBuffers : bool)
    (staticDesiredJitterBufferFrames : Z) (useStDevForJitterCalc : bool)
    (windowStarveThreshold : Z) (windowSecondsForDesiredCalcOnTooManyStarves : Z)
    (windowSecondsForDesiredReduction7 : Z) : Settings := {|
  _maxFramesOverDesired := maxFramesOverDesired;
  _dynamicJitterBuffers := dynamicJitterBuffers;
  _staticDesiredJitterBufferFrames := staticDesiredJitterBufferFrames;
  _useStDevForJitterCalc := useStDevForJitterCalc;
  _windowStarveThreshold := windowStarveThreshold;
  _windowSecondsForDesiredCalcOnTooManyStarves :=
    windowSecondsForDesiredCalcOnTooManyStarves;
  _windowSecondsForDesiredReduction := windowSecondsForDesiredCalcOnTooManyStarves
|}.

End Settings.

(** ** Collaborating classes

    [InboundAudioStream.h] includes [AudioRingBuffer.h],
    [SequenceNumberStats.h], [MovingMinMaxAvg.h], [StDev.h],
    [TimeWeightedAvg.h] and [PacketHeaders.h]; none of them is among the
    sources.  The ring buffer and the sequence tracker are described by the
    specification (sections 3, 4.1 and 4.2) and are modelled from it; of the
    three statistics classes the specification fixes the role only, so they
    enter as an interface. *)

(** [PacketType] (PacketHeaders.h) and Qt's [QByteArray] are not among the
    sources: a packet type is carried as a number, a byte array as the list
    of its bytes. *)
Definition PacketType : Type := Z.
Definition QByteArray : Type := list Byte.byte.

(** Modelled from the spec: the statistics classes behind the members
    [_timeGapStats...], [_stdevStats...] and [_framesAvailableStat] (spec
    section 3, "JitterStats": moving-window aggregators over packet timegaps,
    a min/max/avg one and a standard-deviation one; "currentJitterBufferFrames":
    a time-weighted average of framesAvailable), and the duration of one frame
    in microseconds (spec section 4.3).  Only the operations the stream calls
    are named; their results are left to the implementation, and real-valued
    results are carried as rationals. *)
Class TimingStats : Type := {
  frameDurationUsec : Z;
  MovingMinMaxAvg : Type;
  mmaNew : Z -> MovingMinMaxAvg;
  mmaUpdate : Z -> MovingMinMaxAvg -> MovingMinMaxAvg;
  mmaFlush : MovingMinMaxAvg -> MovingMinMaxAvg;
  mmaResize : Z -> MovingMinMaxAvg -> MovingMinMaxAvg;
  mmaReset : MovingMinMaxAvg -> MovingMinMaxAvg;
  mmaWindowMax : MovingMinMaxAvg -> Z;
  StDev : Type;
  sdNew : Z -> StDev;
  sdAddValue : Z -> StDev -> StDev;
  sdFlush : StDev -> StDev;
  sdResize : Z -> StDev -> StDev;
  sdReset : StDev -> StDev;
  sdGetStDev : StDev -> Q;
  TimeWeightedAvg : Type;
  twaNew : TimeWeightedAvg;
  twaUpdateWithSample : Z -> Z -> TimeWeightedAvg -> TimeWeightedAvg;
  twaReset : TimeWeightedAvg -> TimeWeightedAvg;
  twaGetAverage : TimeWeightedAvg -> Q;
  twaGetElapsedUsecs : Z -> TimeWeightedAvg -> Z
}.

(** Modelled from the spec: the failure of the subclass parser (section 6:
    it "fails with ParseError on malformed payload"). *)
Inductive ParseError : Type := MalformedPayload.

(** Modelled from the spec: the subclass's [parseStreamProperties], which the
    header declares pure virtual (line 175, with the comment at lines
    173-174): it reads the bytes between the sequence number and the audio
    data and reports how many audio samples the packet holds and how many
    bytes it read.  Section 6: it fails with [ParseError] on a malformed
    payload.  Both results are counts. *)
Class StreamKind : Type := {
  parseStreamProperties : PacketType -> QByteArray -> ParseError + (nat * nat)
}.

(** *** AudioRingBuffer *)

Module AudioRingBuffer.

(** Modelled from the spec: [AudioRingBuffer] (section 3, "RingBuffer":
    circular store of frameCapacity x frameSampleCount samples; attributes
    write cursor, read cursor, overflow count).  The cursors are positions in
    the stream of samples, so the samples held are those between them; sample
    values are not represented. *)
Record AudioRingBuffer : Type := Build {
  numFrameSamples : Z;
  frameCapacity : Z;
  readCursor : Z;
  writeCursor : Z;
  overflowCount : Z
}.

Definition create (numFrameSamples numFramesCapacity : Z) : AudioRingBuffer :=
  Build numFrameSamples numFramesCapacity 0 0 0.

Definition getNumFrameSamples (rb : AudioRingBuffer) : Z := numFrameSamples rb.
Definition getFrameCapacity (rb : AudioRingBuffer) : Z := frameCapacity rb.
Definition getOverflowCount (rb : AudioRingBuffer) : Z := overflowCount rb.

Definition sampleCapacity (rb : AudioRingBuffer) : Z :=
  frameCapacity rb * numFrameSamples rb.
Definition samplesAvailable (rb : AudioRingBuffer) : Z :=
  writeCursor rb - readCursor rb.
Definition samplesRemaining (rb : AudioRingBuffer) : Z :=
  sampleCapacity rb - samplesAvailable rb.
Definition framesAvailable (rb : AudioRingBuffer) : Z :=
  samplesAvailable rb / numFrameSamples rb.
Definition framesRemaining (rb : AudioRingBuffer) : Z :=
  samplesRemaining rb / numFrameSamples rb.

(** Modelled from the spec: [writeSamples(src, n)] and [writeSilent(n)]
    (section 4.1): "on write overflow, advance read cursor by the overflowed
    sample count, increment overflow, and write".  A count below zero writes
    nothing. *)
Definition writeSamples (n : Z) (rb : AudioRingBuffer) : AudioRingBuffer :=
  let n := Z.max 0 n in
  let overflowed := n - samplesRemaining rb in
  if 0 <? overflowed
  then Build (numFrameSamples rb) (frameCapacity rb)
             (readCursor rb + overflowed) (writeCursor rb + n)
             (overflowCount rb + 1)
  else Build (numFrameSamples rb) (frameCapacity rb)
             (readCursor rb) (writeCursor rb + n) (overflowCount rb).

Definition writeSilent (n : Z) (rb : AudioRingBuffer) : AudioRingBuffer :=
  writeSamples n rb.

(** Modelled from the spec: the read side (section 4.1, [popFrames(n)];
    section 3: "a successful pop of N frames moves the read cursor by exactly
    N x frameSampleCount").  The ring hands out what it holds: the count is
    cut to the samples (frames) available, and a count below zero pops
    nothing.  The result is the new ring and the count popped. *)
Definition popSamples (n : Z) (rb : AudioRingBuffer) : AudioRingBuffer * Z :=
  let k := Z.max 0 (Z.min n (samplesAvailable rb)) in
  (Build (numFrameSamples rb) (frameCapacity rb)
         (readCursor rb + k) (writeCursor rb) (overflowCount rb), k).

Definition popFrames (n : Z) (rb : AudioRingBuffer) : AudioRingBuffer * Z :=
  let k := Z.max 0 (Z.min n (framesAvailable rb)) in
  (Build (numFrameSamples rb) (frameCapacity rb)
         (readCursor rb + k * numFrameSamples rb) (writeCursor rb)
         (overflowCount rb), k).

(** Modelled from the spec: dropping all frames (section 4.7,
    [clearBuffer()]: "drop all frames without resetting stats"): the read
    cursor catches up with the write cursor. *)
Definition clear (rb : AudioRingBuffer) : AudioRingBuffer :=
  Build (numFrameSamples rb) (frameCapacity rb)
        (writeCursor rb) (writeCursor rb) (overflowCount rb).

End AudioRingBuffer.

(** *** SequenceNumberStats *)

Module SequenceNumberStats.

Definition MAX_REASONABLE_SEQ_GAP : Z := 1000.

(** Sequence numbers are 16 bits wide and wrap. *)
Definition UINT16_MAX : Z := 65535.
Definition u16 (x : Z) : Z := x mod (UINT16_MAX + 1).

Inductive ArrivalStatus : Type :=
| OnTime
| Early (gap : Z)
| Late (offset : Z)
| Duplicate
| Unreasonable.

(** Modelled from the spec: [SequenceNumberStats] (section 3: last-seen
    number, received, unreasonable, early, late, lost, duplicate and reordered
    counts).  [missing] holds the numbers an early packet skipped and that
    have not arrived since: it is what tells a late packet from a duplicate.
    The specification gives no rule for the reordered count; it is carried
    and never changed. *)
Record SequenceNumberStats : Type := Build {
  lastSeen : option Z;
  missing : list Z;
  received : Z;
  unreasonable : Z;
  early : Z;
  late : Z;
  lost : Z;
  duplicate : Z;
  reordered : Z
}.

Definition create : SequenceNumberStats := Build None [] 0 0 0 0 0 0 0.

Definition getReceived (st : SequenceNumberStats) : Z := received st.

(** The numbers [from], [from + 1], ... ([gap] of them), wrapped. *)
Definition skipped (from gap : Z) : list Z :=
  map (fun i => u16 (from + Z.of_nat i)) (seq 0 (Z.to_nat gap)).

(** Modelled from the spec: the classification of section 4.2.  The first
    packet after a reset is ONTIME and sets the baseline; [s = expected] is
    ONTIME; [s] ahead of [expected] by at most [MAX_REASONABLE_SEQ_GAP] is
    EARLY and the numbers in between are counted lost; [s] behind [expected]
    by at most that much is LATE when it is one of the missing numbers and
    DUPLICATE when it has been seen; anything else is UNREASONABLE.  Distances
    are taken modulo 2^16, the nearer way round. *)
Definition sequenceNumberReceived (s : Z) (st : SequenceNumberStats)
  : SequenceNumberStats * ArrivalStatus :=
  let s := u16 s in
  match lastSeen st with
  | None =>
      (Build (Some s) (missing st) (received st + 1) (unreasonable st) (early st)
             (late st) (lost st) (duplicate st) (reordered st), OnTime)
  | Some l =>
      let expected := u16 (l + 1) in
      let ahead := u16 (s - expected) in
      let behind := UINT16_MAX + 1 - ahead in
      if ahead =? 0 then
        (Build (Some s) (missing st) (received st + 1) (unreasonable st) (early st)
               (late st) (lost st) (duplicate st) (reordered st), OnTime)
      else if ahead <=? MAX_REASONABLE_SEQ_GAP then
        (Build (Some s) (skipped expected ahead ++ missing st) (received st + 1)
               (unreasonable st) (early st + 1) (late st) (lost st + ahead)
               (duplicate st) (reordered st), Early ahead)
      else if behind <=? MAX_REASONABLE_SEQ_GAP then
        if existsb (Z.eqb s) (missing st) then
          (Build (lastSeen st) (filter (fun m => negb (m =? s)) (missing st))
                 (received st + 1) (unreasonable st) (early st) (late st + 1)
                 (lost st) (duplicate st) (reordered st), Late behind)
        else
          (Build (lastSeen st) (missing st) (received st + 1) (unreasonable st)
                 (early st) (late st) (lost st) (duplicate st + 1) (reordered st),
           Duplicate)
      else
        (Build (lastSeen st) (missing st) (received st + 1) (unreasonable st + 1)
               (early st) (late st) (lost st) (duplicate st) (reordered st),
         Unreasonable)
  end.

(** Modelled from the spec: the resync of the tracker (section 4.7, [reset()]:
    "clear buffer + reset stats + resync"; section 4.2: "first packet after
    reset is ONTIME and sets the baseline"): the baseline and the missing
    numbers go, the counts stay (section 7: an unreasonable jump leads to
    [reset()] and is "counted as such"). *)
Definition resync (st : SequenceNumberStats) : SequenceNumberStats :=
  Build None [] (received st) (unreasonable st) (early st) (late st) (lost st)
        (duplicate st) (reordered st).

End SequenceNumberStats.

(** ** class InboundAudioStream (lines 50-234) *)

Module InboundAudioStream.

Import AudioRingBuffer SequenceNumberStats.

(** [AudioRingBuffer::ConstIterator]: a position in the stream of samples. *)
Definition ConstIterator : Type := Z.

(** [RingBufferHistory<quint64>]: the recorded timestamps, newest first. *)
Definition RingBufferHistory : Type := list Z.

Section Stream.

Context {TS : TimingStats} {SK : StreamKind}.

(** The data members, lines 185-233, in the order of the header. *)
Record InboundAudioStream : Type := Build {
  _ringBuffer : AudioRingBuffer;
  _lastPopSucceeded : bool;
  _lastPopOutput : ConstIterator;
  _dynamicJitterBuffers : bool;
  _staticDesiredJitterBufferFrames : Z;
  _useStDevForJitterCalc : bool;
  _desiredJitterBufferFrames : Z;
  _maxFramesOverDesired : Z;
  _isStarved : bool;
  _hasStarted : bool;
  _consecutiveNotMixedCount : Z;
  _starveCount : Z;
  _silentFramesDropped : Z;
  _oldFramesDropped : Z;
  _incomingSequenceNumberStats : SequenceNumberStats;
  _lastPacketReceivedTime : Z;
  _timeGapStatsForDesiredCalcOnTooManyStarves : MovingMinMaxAvg;
  _calculatedJitterBufferFramesUsingMaxGap : Z;
  _stdevStatsForDesiredCalcOnTooManyStarves : StDev;
  _calculatedJitterBufferFramesUsingStDev : Z;
  _timeGapStatsForDesiredReduction : MovingMinMaxAvg;
  _starveHistoryWindowSeconds : Z;
  _starveHistory : RingBufferHistory;
  _starveThreshold : Z;
  _framesAvailableStat : TimeWeightedAvg;
  _currentJitterBufferFrames : Z;
  _timeGapStatsForStatsPacket : MovingMinMaxAvg
}.

(** *** Assignment to one member

    A C++ assignment [_m = v;] inside a member function gives the stream in
    which the member [_m] is [v] and every other member is what it was.
    [copy s] rebuilds [s] member by member; [set_m v s] is [copy s] with the
    reading [_m s] replaced by [v] (the tactic [assign] writes that term). *)
Definition copy (s : InboundAudioStream) : InboundAudioStream :=
  Build (_ringBuffer s) (_lastPopSucceeded s) (_lastPopOutput s)
    (_dynamicJitterBuffers s) (_staticDesiredJitterBufferFrames s)
    (_useStDevForJitterCalc s) (_desiredJitterBufferFrames s)
    (_maxFramesOverDesired s) (_isStarved s) (_hasStarted s)
    (_consecutiveNotMixedCount s) (_starveCount s) (_silentFramesDropped s)
    (_oldFramesDropped s) (_incomingSequenceNumberStats s)
    (_lastPacketReceivedTime s) (_timeGapStatsForDesiredCalcOnTooManyStarves s)
    (_calculatedJitterBufferFramesUsingMaxGap s)
    (_stdevStatsForDesiredCalcOnTooManyStarves s)
    (_calculatedJitterBufferFramesUsingStDev s)
    (_timeGapStatsForDesiredReduction s) (_starveHistoryWindowSeconds s)
    (_starveHistory s) (_starveThreshold s) (_framesAvailableStat s)
    (_currentJitterBufferFrames s) (_timeGapStatsForStatsPacket s).

Ltac assign member :=
  let v := fresh "v" in
  let s := fresh "s" in
  intros v s;
  let whole := eval cbv beta delta [copy] in (copy s) in
  lazymatch eval pattern (member s) in whole with
  | ?f _ => let r := eval cbv beta in (f v) in exact r
  end.

Definition set_ringBuffer : AudioRingBuffer -> InboundAudioStream -> InboundAudioStream :=
  ltac:(assign _ringBuffer).
Definition set_lastPopSucceeded : bool -> InboundAudioStream -> InboundAudioStream :=
  ltac:(assign _lastPopSucceeded).
Definition set_lastPopOutput : ConstIterator -> InboundAudioStream -> InboundAudioStream :=
  ltac:(assign _lastPopOutput).
Definition set_dynamicJitterBuffers : bool -> InboundAudioStream -> InboundAudioStream :=
  ltac:(assign _dynamicJitterBuffers).
Definition set_staticDesiredJitterBufferFrames : Z -> InboundAudioStream -> InboundAudioStream :=
  ltac:(assign _staticDesiredJitterBufferFrames).
Definition set_useStDevForJitterCalc : bool -> InboundAudioStream -> InboundAudioStream :=
  ltac:(assign _useStDevForJitterCalc).
Definition set_desiredJitterBufferFrames : Z -> InboundAudioStream -> InboundAudioStream :=
  ltac:(assign _desiredJitterBufferFrames).
Definition set_maxFramesOverDesired : Z -> InboundAudioStream -> InboundAudioStream :=
  ltac:(assign _maxFramesOverDesired).
Definition set_isStarved : bool -> InboundAudioStream -> InboundAudioStream :=
  ltac:(assign _isStarved).
Definition set_hasStarted : bool -> InboundAudioStream -> InboundAudioStream :=
  ltac:(assign _hasStarted).
Definition set_consecutiveNotMixedCount : Z -> InboundAudioStream -> InboundAudioStream :=
  ltac:(assign _consecutiveNotMixedCount).
Definition set_starveCount : Z -> InboundAudioStream -> InboundAudioStream :=
  ltac:(assign _starveCount).
Definition set_silentFramesDropped : Z -> InboundAudioStream -> InboundAudioStream :=
  ltac:(assign _silentFramesDropped).
Definition set_oldFramesDropped : Z -> InboundAudioStream -> InboundAudioStream :=
  ltac:(assign _oldFramesDropped).
Definition set_incomingSequenceNumberStats
  : SequenceNumberStats -> InboundAudioStream -> InboundAudioStream :=
  ltac:(assign _incomingSequenceNumberStats).
Definition set_lastPacketReceivedTime : Z -> InboundAudioStream -> InboundAudioStream :=
  ltac:(assign _lastPacketReceivedTime).
Definition set_timeGapStatsForDesiredCalcOnTooManyStarves
  : MovingMinMaxAvg -> InboundAudioStream -> InboundAudioStream :=
  ltac:(assign _timeGapStatsForDesiredCalcOnTooManyStarves).
Definition set_calculatedJitterBufferFramesUsingMaxGap
  : Z -> InboundAudioStream -> InboundAudioStream :=
  ltac:(assign _calculatedJitterBufferFramesUsingMaxGap).
Definition set_stdevStatsForDesiredCalcOnTooManyStarves
  : StDev -> InboundAudioStream -> InboundAudioStream :=
  ltac:(assign _stdevStatsForDesiredCalcOnTooManyStarves).
Definition set_calculatedJitterBufferFramesUsingStDev
  : Z -> InboundAudioStream -> InboundAudioStream :=
  ltac:(assign _calculatedJitterBufferFramesUsingStDev).
Definition set_timeGapStatsForDesiredReduction
  : MovingMinMaxAvg -> InboundAudioStream -> InboundAudioStream :=
  ltac:(assign _timeGapStatsForDesiredReduction).
Definition set_starveHistoryWindowSeconds : Z -> InboundAudioStream -> InboundAudioStream :=
  ltac:(assign _starveHistoryWindowSeconds).
Definition set_starveHistory : RingBufferHistory -> InboundAudioStream -> InboundAudioStream :=
  ltac:(assign _starveHistory).
Definition set_starveThreshold : Z -> InboundAudioStream -> InboundAudioStream :=
  ltac:(assign _starveThreshold).
Definition set_framesAvailableStat
  : TimeWeightedAvg -> InboundAudioStream -> InboundAudioStream :=
  ltac:(assign _framesAvailableStat).
Definition set_currentJitterBufferFrames : Z -> InboundAudioStream -> InboundAudioStream :=
  ltac:(assign _currentJitterBufferFrames).
Definition set_timeGapStatsForStatsPacket
  : MovingMinMaxAvg -> InboundAudioStream -> InboundAudioStream :=
  ltac:(assign _timeGapStatsForStatsPacket).

(** *** Inline member functions of the header *)

(** Line 106. *)
Definition lastPopSucceeded (s : InboundAudioStream) : bool := _lastPopSucceeded s.
(** Line 107. *)
Definition getLastPopOutput (s : InboundAudioStream) : ConstIterator := _lastPopOutput s.

(** Line 115: [{ _maxFramesOverDesired = maxFramesOverDesired; }]. *)
Definition setMaxFramesOverDesired (maxFramesOverDesired : Z) (s : InboundAudioStream)
  : InboundAudioStream :=
  set_maxFramesOverDesired maxFramesOverDesired s.

(** Line 118: [{ _useStDevForJitterCalc = useStDevForJitterCalc; }]. *)
Definition setUseStDevForJitterCalc (useStDevForJitterCalc : bool) (s : InboundAudioStream)
  : InboundAudioStream :=
  set_useStDevForJitterCalc useStDevForJitterCalc s.

(** Line 119: [{ _starveThreshold = windowStarveThreshold; }]. *)
Definition setWindowStarveThreshold (windowStarveThreshold : Z) (s : InboundAudioStream)
  : InboundAudioStream :=
  set_starveThreshold windowStarveThreshold s.

(** Lines 127-128. *)
Definition getCalculatedJitterBufferFrames (s : InboundAudioStream) : Z :=
  if _useStDevForJitterCalc s
  then _calculatedJitterBufferFramesUsingStDev s
  else _calculatedJitterBufferFramesUsingMaxGap s.

(** Line 131: Philip's method. *)
Definition getCalculatedJitterBufferFramesUsingStDev (s : InboundAudioStream) : Z :=
  _calculatedJitterBufferFramesUsingStDev s.
(** Line 134: Freddy's method. *)
Definition getCalculatedJitterBufferFramesUsingMaxGap (s : InboundAudioStream) : Z :=
  _calculatedJitterBufferFramesUsingMaxGap s.

(** Lines 136-141. *)
Definition getDesiredJitterBufferFrames (s : InboundAudioStream) : Z :=
  _desiredJitterBufferFrames s.
Definition getMaxFramesOverDesired (s : InboundAudioStream) : Z :=
  _maxFramesOverDesired s.
Definition getNumFrameSamples (s : InboundAudioStream) : Z :=
  AudioRingBuffer.getNumFrameSamples (_ringBuffer s).
Definition getFrameCapacity (s : InboundAudioStream) : Z :=
  AudioRingBuffer.getFrameCapacity (_ringBuffer s).
Definition getFramesAvailable (s : InboundAudioStream) : Z :=
  AudioRingBuffer.framesAvailable (_ringBuffer s).
Definition getFramesAvailableAverage (s : InboundAudioStream) : Q :=
  twaGetAverage (_framesAvailableStat s).

(** Lines 143-151. *)
Definition isStarved (s : InboundAudioStream) : bool := _isStarved s.
Definition hasStarted (s : InboundAudioStream) : bool := _hasStarted s.
Definition getConsecutiveNotMixedCount (s : InboundAudioStream) : Z :=
  _consecutiveNotMixedCount s.
Definition getStarveCount (s : InboundAudioStream) : Z := _starveCount s.
Definition getSilentFramesDropped (s : InboundAudioStream) : Z := _silentFramesDropped s.
Definition getOverflowCount (s : InboundAudioStream) : Z :=
  AudioRingBuffer.getOverflowCount (_ringBuffer s).
Definition getPacketsReceived (s : InboundAudioStream) : Z :=
  SequenceNumberStats.getReceived (_incomingSequenceNumberStats s).

(** What a caller can read of a stream through the public [const] member
    functions of the header (lines 106-151), one component per getter. *)
Record Observation : Type := Observe {
  obs_lastPopSucceeded : bool;
  obs_lastPopOutput : ConstIterator;
  obs_calculatedJitterBufferFrames : Z;
  obs_calculatedJitterBufferFramesUsingStDev : Z;
  obs_calculatedJitterBufferFramesUsingMaxGap : Z;
  obs_desiredJitterBufferFrames : Z;
  obs_maxFramesOverDesired : Z;
  obs_numFrameSamples : Z;
  obs_frameCapacity : Z;
  obs_framesAvailable : Z;
  obs_framesAvailableAverage : Q;
  obs_isStarved : bool;
  obs_hasStarted : bool;
  obs_consecutiveNotMixedCount : Z;
  obs_starveCount : Z;
  obs_silentFramesDropped : Z;
  obs_overflowCount : Z;
  obs_packetsReceived : Z
}.

Definition observe (s : InboundAudioStream) : Observation :=
  Observe (lastPopSucceeded s) (getLastPopOutput s) (getCalculatedJitterBufferFrames s)
    (getCalculatedJitterBufferFramesUsingStDev s)
    (getCalculatedJitterBufferFramesUsingMaxGap s) (getDesiredJitterBufferFrames s)
    (getMaxFramesOverDesired s) (getNumFrameSamples s) (getFrameCapacity s)
    (getFramesAvailable s) (getFramesAvailableAverage s) (isStarved s) (hasStarted s)
    (getConsecutiveNotMixedCount s) (getStarveCount s) (getSilentFramesDropped s)
    (getOverflowCount s) (getPacketsReceived s).

(** *** Member functions defined in InboundAudioStream.cpp

    The header only declares them; each is modelled from the specification.
    The clock a member function reads is its [now] argument, in
    microseconds. *)

(** Modelled from the spec: [clampDesiredJitterBufferFramesValue] (declared at
    line 161; section 3: desiredFrames is "clamped to
    [0, frameCapacity - maxFramesOverDesired]"). *)
Definition clampDesiredJitterBufferFramesValue (s : InboundAudioStream) (desired : Z) : Z :=
  Z.min (Z.max desired 0) (getFrameCapacity s - _maxFramesOverDesired s).

(** [a / b] rounded up, for a positive [b]. *)
Definition ceilDiv (a b : Z) : Z := - ((- a) / b).

(** Modelled from the spec: [framesAvailableChanged] (declared at line 166;
    section 3: currentJitterBufferFrames is the "time-weighted average of
    framesAvailable, updated every FRAMES_AVAILABLE_STAT_WINDOW = 2 s"; the
    comment at lines 35-36 of the header: when the window fills up the value is
    updated and the running average is reset).  The average is rounded up. *)
Definition framesAvailableChanged (now : Z) (s : InboundAudioStream) : InboundAudioStream :=
  let stat := twaUpdateWithSample (getFramesAvailable s) now (_framesAvailableStat s) in
  if FRAMES_AVAILABLE_STAT_WINDOW_USECS <=? twaGetElapsedUsecs now stat
  then set_framesAvailableStat (twaReset stat)
         (set_currentJitterBufferFrames (Qceiling (twaGetAverage stat)) s)
  else set_framesAvailableStat stat s.

(** Modelled from the spec: the starves on record that fall within the last
    [_starveHistoryWindowSeconds] seconds (section 3, "StarveHistory";
    section 4.4, "countOfStarvesInWindow"). *)
Definition inStarveWindow (now : Z) (s : InboundAudioStream) (t : Z) : bool :=
  now - _starveHistoryWindowSeconds s * USECS_PER_SECOND <=? t.

Definition countOfStarvesInWindow (now : Z) (s : InboundAudioStream) : Z :=
  Z.of_nat (length (filter (inStarveWindow now s) (_starveHistory s))).

(** Modelled from the spec: section 4.4, step 3: "if countOfStarvesInWindow >=
    windowStarveThreshold, the stream is in too-many-starves mode". *)
Definition tooManyStarves (now : Z) (s : InboundAudioStream) : bool :=
  _starveThreshold s <=? countOfStarvesInWindow now s.

(** Modelled from the spec: DepthPolicy, section 4.5, rules 1 to 5 in order.
    It is "invoked on parseData (for growth on starve) and from the per-second
    tick (for shrink and routine refresh)": [shrink] is true on the tick only,
    and rule 4 is the shrink rule. *)
Definition depthPolicy (shrink : bool) (now : Z) (s : InboundAudioStream)
  : InboundAudioStream :=
  if negb (_dynamicJitterBuffers s) then
    set_desiredJitterBufferFrames
      (clampDesiredJitterBufferFramesValue s (_staticDesiredJitterBufferFrames s)) s
  else
    let candidate := getCalculatedJitterBufferFrames s in
    let desired := _desiredJitterBufferFrames s in
    let target :=
      if tooManyStarves now s then
        Z.max desired (candidate + DESIRED_JITTER_BUFFER_FRAMES_PADDING)
      else if shrink then
        let shrinkTo :=
          clampDesiredJitterBufferFramesValue s
            (mmaWindowMax (_timeGapStatsForDesiredReduction s) / frameDurationUsec) in
        if shrinkTo <? desired then shrinkTo else desired
      else desired in
    set_desiredJitterBufferFrames (clampDesiredJitterBufferFramesValue s target) s.

(** Modelled from the spec: the record of a starve, section 4.4, steps 1 to 3.
    Step 3 raises desiredFrames through DepthPolicy, the one place that sets
    it (section 2), so that static mode and the clamp apply to it. *)
Definition recordStarve (now : Z) (s : InboundAudioStream) : InboundAudioStream :=
  let s1 := set_isStarved true (set_starveCount (_starveCount s + 1) s) in
  let s2 := set_starveHistory (now :: filter (inStarveWindow now s1) (_starveHistory s1)) s1 in
  if tooManyStarves now s2 then depthPolicy false now s2 else s2.

(** Modelled from the spec: [setToStarved()] (section 4.7: "force
    isStarved=true"). *)
Definition setToStarved (s : InboundAudioStream) : InboundAudioStream :=
  set_isStarved true s.

(** Modelled from the spec: what a pop leaves behind (sections 3, 4.1 and
    4.7).  After a pop of at least one frame or sample: lastPopSucceeded,
    lastPopOutput at the first sample handed out, hasStarted ("true after the
    first successful pop") and consecutiveNotMixedCount back to 0.  After a
    pop of nothing: lastPopSucceeded false, one more not-mixed call, and a
    starve when the caller asked for one. *)
Definition afterPop (now : Z) (starveIfNothingPopped : bool) (before : InboundAudioStream)
    (popped : AudioRingBuffer * Z) : InboundAudioStream * Z :=
  let (rb, n) := popped in
  let s1 :=
    if 0 <? n then
      set_consecutiveNotMixedCount 0
        (set_hasStarted true
           (set_lastPopOutput (readCursor (_ringBuffer before))
              (set_lastPopSucceeded true (set_ringBuffer rb before))))
    else
      let s0 :=
        set_consecutiveNotMixedCount (_consecutiveNotMixedCount before + 1)
          (set_lastPopSucceeded false before) in
      if starveIfNothingPopped then recordStarve now s0 else s0 in
  (framesAvailableChanged now s1, n).

(** Modelled from the spec: [popFrames] (declared at line 103; section 4.7):
    "if allOrNothing and framesAvailable < maxFrames, pop zero and optionally
    starve; else pop min(maxFrames, framesAvailable); on zero pop with
    starveIfNoFramesPopped, record starve".  The result is the new stream and
    the number of frames popped. *)
Definition popFrames (maxFrames : Z) (allOrNothing starveIfNoFramesPopped : bool)
    (now : Z) (s : InboundAudioStream) : InboundAudioStream * Z :=
  let available := getFramesAvailable s in
  let request :=
    if allOrNothing && (available <? maxFrames) then 0
    else Z.min maxFrames available in
  afterPop now starveIfNoFramesPopped s (AudioRingBuffer.popFrames request (_ringBuffer s)).

(** Modelled from the spec: [popSamples] (declared at line 104; section 4.7:
    "the sample-granularity analog"). *)
Definition popSamples (maxSamples : Z) (allOrNothing starveIfNoSamplesPopped : bool)
    (now : Z) (s : InboundAudioStream) : InboundAudioStream * Z :=
  let available := samplesAvailable (_ringBuffer s) in
  let request :=
    if allOrNothing && (available <? maxSamples) then 0
    else Z.min maxSamples available in
  afterPop now starveIfNoSamplesPopped s (AudioRingBuffer.popSamples request (_ringBuffer s)).

(** Modelled from the spec: [clearBuffer()] (section 4.7: "drop all frames
    without resetting stats"). *)
Definition clearBuffer (s : InboundAudioStream) : InboundAudioStream :=
  set_ringBuffer (clear (_ringBuffer s)) s.

(** Modelled from the spec: [resetStats()] (declared at line 98).  The stats
    are the members the header lists under its "stats" comment (lines
    206-233), the sequence tracker apart, which [reset()] resyncs. *)
Definition resetStats (s : InboundAudioStream) : InboundAudioStream :=
  set_consecutiveNotMixedCount 0
    (set_starveCount 0
       (set_silentFramesDropped 0
          (set_oldFramesDropped 0
             (set_lastPacketReceivedTime 0
                (set_timeGapStatsForDesiredCalcOnTooManyStarves
                   (mmaReset (_timeGapStatsForDesiredCalcOnTooManyStarves s))
                   (set_stdevStatsForDesiredCalcOnTooManyStarves
                      (sdReset (_stdevStatsForDesiredCalcOnTooManyStarves s))
                      (set_timeGapStatsForDesiredReduction
                         (mmaReset (_timeGapStatsForDesiredReduction s))
                         (set_starveHistory []
                            (set_framesAvailableStat (twaReset (_framesAvailableStat s))
                               (set_timeGapStatsForStatsPacket
                                  (mmaReset (_timeGapStatsForStatsPacket s)) s)))))))))).

(** Modelled from the spec: [reset()] (section 4.7: "clear buffer + reset
    stats + resync"). *)
Definition reset (s : InboundAudioStream) : InboundAudioStream :=
  let s1 := resetStats (clearBuffer s) in
  set_incomingSequenceNumberStats (resync (_incomingSequenceNumberStats s1)) s1.

(** Modelled from the spec: a packet as the header decoder hands it on
    (section 4.6, step 1: "decode header -> (type, sequenceNumber,
    payloadAfterSeq)"; the decoder itself is outside the stream, section 1).
    [headerBytes] counts the bytes up to and including the sequence
    number. *)
Record Packet : Type := BuildPacket {
  packetType : PacketType;
  headerBytes : Z;
  sequenceNumber : Z;
  payloadAfterSeq : QByteArray
}.

(** Modelled from the spec: [writeDroppableSilentSamples] (declared at line
    181; section 4.6, "Loss fill"): "if framesAvailable >=
    currentJitterBufferFrames, each dropped packet's worth of silent samples
    may be dropped entirely ...; otherwise write the full n", and what is not
    written "is accounted in silentFramesDropped".  The result is the new
    stream and the number of samples written. *)
Definition writeDroppableSilentSamples (numSilentSamples : Z) (s : InboundAudioStream)
  : InboundAudioStream * Z :=
  let n := Z.max 0 numSilentSamples in
  if _currentJitterBufferFrames s <=? getFramesAvailable s
  then (set_silentFramesDropped (_silentFramesDropped s + n) s, 0)
  else (set_ringBuffer (writeSilent n (_ringBuffer s)) s, n).

(** Modelled from the spec: [writeSamplesForDroppedPackets] (declared at line
    163; section 4.6: it "writes numSilentSamples via
    writeDroppableSilentSamples"). *)
Definition writeSamplesForDroppedPackets (numSamples : Z) (s : InboundAudioStream)
  : InboundAudioStream * Z :=
  writeDroppableSilentSamples numSamples s.

(** Modelled from the spec: one sample is a 16-bit PCM value (section 6). *)
Definition BYTES_PER_SAMPLE : Z := 2.

(** Modelled from the spec: the default [parseAudioData] (declared at line
    179, "default implementation assumes packet contains raw audio samples
    after stream properties"; section 6: "copy numAudioSamples little-endian
    16-bit PCM samples").  The result is the new stream and the bytes read. *)
Definition parseAudioData (type : PacketType) (packetAfterStreamProperties : QByteArray)
    (numAudioSamples : Z) (s : InboundAudioStream) : InboundAudioStream * Z :=
  (set_ringBuffer (writeSamples numAudioSamples (_ringBuffer s)) s,
   Z.max 0 numAudioSamples * BYTES_PER_SAMPLE).

(** Modelled from the spec: [packetReceivedUpdateTimingStats] (declared at
    line 160; section 4.3: "every accepted non-duplicate packet records the
    inter-arrival microsecond delta since the previous accepted packet").  A
    [_lastPacketReceivedTime] of 0 means there is no previous packet. *)
Definition packetReceivedUpdateTimingStats (now : Z) (s : InboundAudioStream)
  : InboundAudioStream :=
  let s1 :=
    if _lastPacketReceivedTime s =? 0 then s
    else
      let gap := now - _lastPacketReceivedTime s in
      set_timeGapStatsForDesiredCalcOnTooManyStarves
        (mmaUpdate gap (_timeGapStatsForDesiredCalcOnTooManyStarves s))
        (set_stdevStatsForDesiredCalcOnTooManyStarves
           (sdAddValue gap (_stdevStatsForDesiredCalcOnTooManyStarves s))
           (set_timeGapStatsForDesiredReduction
              (mmaUpdate gap (_timeGapStatsForDesiredReduction s))
              (set_timeGapStatsForStatsPacket
                 (mmaUpdate gap (_timeGapStatsForStatsPacket s)) s))) in
  set_lastPacketReceivedTime now s1.

(** Modelled from the spec: section 4.6, step 7: "if ring now exceeds
    desiredFrames + maxFramesOverDesired, drop oldest frames until at
    desiredFrames; increment oldFramesDropped". *)
Definition dropOldFrames (s : InboundAudioStream) : InboundAudioStream :=
  let available := getFramesAvailable s in
  if _desiredJitterBufferFrames s + _maxFramesOverDesired s <? available then
    let (rb, dropped) :=
      AudioRingBuffer.popFrames (available - _desiredJitterBufferFrames s) (_ringBuffer s) in
    set_oldFramesDropped (_oldFramesDropped s + dropped) (set_ringBuffer rb s)
  else s.

(** Modelled from the spec: the end of [parseData], section 4.6, steps 7 and
    8, with section 4.4: "isStarved clears when framesAvailable >=
    desiredFrames". *)
Definition afterPacket (now : Z) (s : InboundAudioStream) : InboundAudioStream :=
  let s1 := dropOldFrames s in
  let s2 :=
    if _isStarved s1 && (_desiredJitterBufferFrames s1 <=? getFramesAvailable s1)
    then set_isStarved false s1 else s1 in
  framesAvailableChanged now s2.

(** Modelled from the spec: [parseData] (declared at line 101; section 4.6,
    steps 1 to 8, and section 7).  UNREASONABLE: [reset()], return the bytes
    consumed.  DUPLICATE: counted and discarded.  LATE: counted and dropped
    (of the two policies section 9 leaves open, the one that never writes
    behind the write cursor).  ONTIME and EARLY: the subclass parses the
    stream properties; when that fails the call returns the bytes consumed so
    far and the stream as the tracker left it; otherwise loss fill for an
    EARLY gap, the audio data, the timegap, and the growth branch of
    DepthPolicy.  The result is the new stream and the bytes consumed. *)
Definition parseData (packet : Packet) (now : Z) (s : InboundAudioStream)
  : InboundAudioStream * Z :=
  let (tracker, status) :=
    sequenceNumberReceived (sequenceNumber packet) (_incomingSequenceNumberStats s) in
  let s1 := set_incomingSequenceNumberStats tracker s in
  match status with
  | Unreasonable => (reset s1, headerBytes packet)
  | Duplicate | Late _ => (afterPacket now s1, headerBytes packet)
  | OnTime | Early _ =>
      match parseStreamProperties (packetType packet) (payloadAfterSeq packet) with
      | inl _ => (s1, headerBytes packet)
      | inr (numAudioSamples, propertyBytes) =>
          let numAudioSamples := Z.of_nat numAudioSamples in
          let s2 :=
            match status with
            | Early gap => fst (writeSamplesForDroppedPackets (gap * numAudioSamples) s1)
            | _ => s1
            end in
          let (s3, audioBytes) :=
            parseAudioData (packetType packet)
              (skipn propertyBytes (payloadAfterSeq packet)) numAudioSamples s2 in
          let s4 := packetReceivedUpdateTimingStats now s3 in
          let s5 := depthPolicy false now s4 in
          (afterPacket now s5, headerBytes packet + Z.of_nat propertyBytes + audioBytes)
      end
  end.

(** Modelled from the spec: section 6, "NUM_STDDEVS_FOR_DESIRED_JITTER = 3". *)
Definition NUM_STDDEVS_FOR_DESIRED_JITTER : Z := 3.

(** Modelled from the spec: [perSecondCallbackForUpdatingStats] (declared at
    line 157; section 4.8): it "advances the stats-for-stats-packet window,
    flushes completed sub-windows of both JitterEstimator aggregators,
    recomputes F and P, applies DepthPolicy shrink rules, and refreshes
    currentJitterBufferFrames".  F and P are those of section 4.3: the window's
    maximum gap, and NUM_STDDEVS_FOR_DESIRED_JITTER standard deviations, in
    frames, rounded up and clamped. *)
Definition perSecondCallbackForUpdatingStats (now : Z) (s : InboundAudioStream)
  : InboundAudioStream :=
  let s1 :=
    set_timeGapStatsForStatsPacket (mmaFlush (_timeGapStatsForStatsPacket s))
      (set_timeGapStatsForDesiredCalcOnTooManyStarves
         (mmaFlush (_timeGapStatsForDesiredCalcOnTooManyStarves s))
         (set_stdevStatsForDesiredCalcOnTooManyStarves
            (sdFlush (_stdevStatsForDesiredCalcOnTooManyStarves s))
            (set_timeGapStatsForDesiredReduction
               (mmaFlush (_timeGapStatsForDesiredReduction s)) s))) in
  let maxGapFrames :=
    ceilDiv (mmaWindowMax (_timeGapStatsForDesiredCalcOnTooManyStarves s1))
            frameDurationUsec in
  let stdevFrames :=
    Qceiling (Qdiv (Qmult (inject_Z NUM_STDDEVS_FOR_DESIRED_JITTER)
                          (sdGetStDev (_stdevStatsForDesiredCalcOnTooManyStarves s1)))
                   (inject_Z frameDurationUsec)) in
  let s2 :=
    set_calculatedJitterBufferFramesUsingMaxGap
      (clampDesiredJitterBufferFramesValue s1 maxGapFrames)
      (set_calculatedJitterBufferFramesUsingStDev
         (clampDesiredJitterBufferFramesValue s1 stdevFrames) s1) in
  framesAvailableChanged now (depthPolicy true now s2).

(** Modelled from the spec: the setters the header only declares (lines 113,
    116, 117, 120, 121).  Section 3: the settings are "all mutable, effective
    on next tick": a setter stores its value, and the windows of the
    aggregators are resized.

    The header says more of static mode, at the declarations of the two
    members: "if false, _desiredJitterBufferFrames will always be
    _staticDesiredJitterBufferFrames" (lines 80-81) and "if false,
    _desiredJitterBufferFrames is locked" (line 190).  So the two setters of
    static mode do not wait for the tick: a stream that is in static mode
    after the call has desiredFrames set as DepthPolicy sets it in static
    mode (section 4.5, rule 1), to the static setting, clamped. *)
Definition setDynamicJitterBuffers (dynamicJitterBuffers : bool) (s : InboundAudioStream)
  : InboundAudioStream :=
  let s1 := set_dynamicJitterBuffers dynamicJitterBuffers s in
  if negb dynamicJitterBuffers then
    set_desiredJitterBufferFrames
      (clampDesiredJitterBufferFramesValue s1 (_staticDesiredJitterBufferFrames s1)) s1
  else s1.

Definition setStaticDesiredJitterBufferFrames (staticDesiredJitterBufferFrames : Z)
    (s : InboundAudioStream) : InboundAudioStream :=
  let s1 := set_staticDesiredJitterBufferFrames staticDesiredJitterBufferFrames s in
  if negb (_dynamicJitterBuffers s1) then
    set_desiredJitterBufferFrames
      (clampDesiredJitterBufferFramesValue s1 staticDesiredJitterBufferFrames) s1
  else s1.

Definition setWindowSecondsForDesiredCalcOnTooManyStarves
    (windowSecondsForDesiredCalcOnTooManyStarves : Z) (s : InboundAudioStream)
  : InboundAudioStream :=
  set_starveHistoryWindowSeconds windowSecondsForDesiredCalcOnTooManyStarves
    (set_timeGapStatsForDesiredCalcOnTooManyStarves
       (mmaResize windowSecondsForDesiredCalcOnTooManyStarves
          (_timeGapStatsForDesiredCalcOnTooManyStarves s))
       (set_stdevStatsForDesiredCalcOnTooManyStarves
          (sdResize windowSecondsForDesiredCalcOnTooManyStarves
             (_stdevStatsForDesiredCalcOnTooManyStarves s)) s)).

Definition setWindowSecondsForDesiredReduction (windowSecondsForDesiredReduction : Z)
    (s : InboundAudioStream) : InboundAudioStream :=
  set_timeGapStatsForDesiredReduction
    (mmaResize windowSecondsForDesiredReduction (_timeGapStatsForDesiredReduction s)) s.

Definition setSettings (settings : Settings.Settings) (s : InboundAudioStream)
  : InboundAudioStream :=
  setWindowSecondsForDesiredReduction (Settings._windowSecondsForDesiredReduction settings)
    (setWindowSecondsForDesiredCalcOnTooManyStarves
       (Settings._windowSecondsForDesiredCalcOnTooManyStarves settings)
       (setWindowStarveThreshold (Settings._windowStarveThreshold settings)
          (setUseStDevForJitterCalc (Settings._useStDevForJitterCalc settings)
             (setStaticDesiredJitterBufferFrames
                (Settings._staticDesiredJitterBufferFrames settings)
                (setDynamicJitterBuffers (Settings._dynamicJitterBuffers settings)
                   (setMaxFramesOverDesired (Settings._maxFramesOverDesired settings) s)))))).

(** Modelled from the spec: the constructor (declared at line 95).  Section 7:
    "the only fatal condition is construction-time misconfiguration
    (frameCapacity < 1, frameSampleCount < 1), which must fail stream
    creation": [None] is the failed creation.  A new stream holds no frame,
    has counted nothing, has not started and is not starved; its settings are
    those passed in.  The specification names no first value of
    desiredFrames: the static setting, clamped, stands until DepthPolicy
    runs. *)
Definition create (numFrameSamples numFramesCapacity : Z) (settings : Settings.Settings)
  : option InboundAudioStream :=
  if (numFramesCapacity <? 1) || (numFrameSamples <? 1) then None
  else
    let longWindow := Settings._windowSecondsForDesiredCalcOnTooManyStarves settings in
    Some (Build
      (AudioRingBuffer.create numFrameSamples numFramesCapacity)
      false 0
      (Settings._dynamicJitterBuffers settings)
      (Settings._staticDesiredJitterBufferFrames settings)
      (Settings._useStDevForJitterCalc settings)
      (Z.min (Z.max (Settings._staticDesiredJitterBufferFrames settings) 0)
             (numFramesCapacity - Settings._maxFramesOverDesired settings))
      (Settings._maxFramesOverDesired settings)
      false false 0 0 0 0
      SequenceNumberStats.create
      0
      (mmaNew longWindow) 0
      (sdNew longWindow) 0
      (mmaNew (Settings._windowSecondsForDesiredReduction settings))
      longWindow [] (Settings._windowStarveThreshold settings)
      twaNew 0
      (mmaNew STATS_FOR_STATS_PACKET_WINDOW_SECONDS)).

(** *** Sequences of calls *)

Inductive Operation : Type :=
| ParseData (packet : Packet)
| PopFrames (maxFrames : Z) (allOrNothing starveIfNoFramesPopped : bool)
| PopSamples (maxSamples : Z) (allOrNothing starveIfNoSamplesPopped : bool)
| SetToStarved
| ClearBuffer
| Reset
| ResetStats
| PerSecondCallbackForUpdatingStats
| SetSettings (settings : Settings.Settings)
| SetMaxFramesOverDesired (maxFramesOverDesired : Z)
| SetDynamicJitterBuffers (dynamicJitterBuffers : bool)
| SetStaticDesiredJitterBufferFrames (staticDesiredJitterBufferFrames : Z)
| SetUseStDevForJitterCalc (useStDevForJitterCalc : bool)
| SetWindowStarveThreshold (windowStarveThreshold : Z)
| SetWindowSecondsForDesiredCalcOnTooManyStarves (seconds : Z)
| SetWindowSecondsForDesiredReduction (seconds : Z).

(** One call, made at time [now]. *)
Definition call (now : Z) (op : Operation) (s : InboundAudioStream) : InboundAudioStream :=
  match op with
  | ParseData packet => fst (parseData packet now s)
  | PopFrames n allOrNothing starve => fst (popFrames n allOrNothing starve now s)
  | PopSamples n allOrNothing starve => fst (popSamples n allOrNothing starve now s)
  | SetToStarved => setToStarved s
  | ClearBuffer => clearBuffer s
  | Reset => reset s
  | ResetStats => resetStats s
  | PerSecondCallbackForUpdatingStats => perSecondCallbackForUpdatingStats now s
  | SetSettings settings => setSettings settings s
  | SetMaxFramesOverDesired v => setMaxFramesOverDesired v s
  | SetDynamicJitterBuffers b => setDynamicJitterBuffers b s
  | SetStaticDesiredJitterBufferFrames v => setStaticDesiredJitterBufferFrames v s
  | SetUseStDevForJitterCalc b => setUseStDevForJitterCalc b s
  | SetWindowStarveThreshold v => setWindowStarveThreshold v s
  | SetWindowSecondsForDesiredCalcOnTooManyStarves w =>
      setWindowSecondsForDesiredCalcOnTooManyStarves w s
  | SetWindowSecondsForDesiredReduction w => setWindowSecondsForDesiredReduction w s
  end.

(** A sequence of calls, each with the time it is made at, first call first. *)
Fixpoint run (calls : list (Z * Operation)) (s : InboundAudioStream) : InboundAudioStream :=
  match calls with
  | [] => s
  | (now, op) :: rest => run rest (call now op s)
  end.

End Stream.
End InboundAudioStream.

(** ** A reference implementation of the collaborators

    Used to run the model on concrete streams.  *)

Module Reference.

(** Modelled from the spec: a moving-window aggregator (section 3,
    "JitterStats"; section 4.8, "flushes completed sub-windows"): the samples
    of the sub-window being filled, and the completed sub-windows of the last
    [window] seconds, newest first. *)
Record Window : Type := BuildWindow {
  window : Z;
  filling : list Z;
  completed : list (list Z)
}.

Definition windowNew (seconds : Z) : Window := BuildWindow seconds [] [].
Definition windowAdd (x : Z) (w : Window) : Window :=
  BuildWindow (window w) (x :: filling w) (completed w).
Definition windowFlush (w : Window) : Window :=
  BuildWindow (window w) [] (firstn (Z.to_nat (window w)) (filling w :: completed w)).
Definition windowResize (seconds : Z) (w : Window) : Window :=
  BuildWindow seconds (filling w) (firstn (Z.to_nat seconds) (completed w)).
Definition windowReset (w : Window) : Window := BuildWindow (window w) [] [].
Definition windowSamples (w : Window) : list Z := concat (completed w).
Definition windowMax (w : Window) : Z := fold_right Z.max 0 (windowSamples w).

(** The standard deviation of the window's samples, to the whole microsecond
    below. *)
Definition windowStDev (w : Window) : Q :=
  let xs := windowSamples w in
  let n := Z.of_nat (length xs) in
  let mean := fold_right Z.add 0 xs / n in
  let variance := fold_right Z.add 0 (map (fun x => (x - mean) * (x - mean)) xs) / n in
  inject_Z (Z.sqrt variance).

(** Modelled from the spec: the time-weighted average (section 3,
    "currentJitterBufferFrames"): each sample weighs as long as it stood. *)
Record Weighted : Type := BuildWeighted {
  since : option Z;
  lastTime : Z;
  lastSample : Z;
  weightedSum : Z;
  totalTime : Z
}.

Definition weightedNew : Weighted := BuildWeighted None 0 0 0 0.
Definition weightedUpdate (sample now : Z) (w : Weighted) : Weighted :=
  match since w with
  | None => BuildWeighted (Some now) now sample 0 0
  | Some _ =>
      BuildWeighted (since w) now sample
        (weightedSum w + lastSample w * (now - lastTime w))
        (totalTime w + (now - lastTime w))
  end.
Definition weightedAverage (w : Weighted) : Q :=
  if totalTime w <=? 0 then inject_Z 0
  else Qmake (weightedSum w) (Z.to_pos (totalTime w)).
Definition weightedElapsed (now : Z) (w : Weighted) : Z :=
  match since w with None => 0 | Some t => now - t end.

(** One frame of 240 samples at 24 kHz lasts 10 ms. *)
Definition timingStats : TimingStats := {|
  frameDurationUsec := 10000;
  MovingMinMaxAvg := Window;
  mmaNew := windowNew;
  mmaUpdate := windowAdd;
  mmaFlush := windowFlush;
  mmaResize := windowResize;
  mmaReset := windowReset;
  mmaWindowMax := windowMax;
  StDev := Window;
  sdNew := windowNew;
  sdAddValue := windowAdd;
  sdFlush := windowFlush;
  sdResize := windowResize;
  sdReset := windowReset;
  sdGetStDev := windowStDev;
  TimeWeightedAvg := Weighted;
  twaNew := weightedNew;
  twaUpdateWithSample := weightedUpdate;
  twaReset := fun _ => weightedNew;
  twaGetAverage := weightedAverage;
  twaGetElapsedUsecs := weightedElapsed
|}.

(** A stream of raw PCM: no stream properties, two bytes a sample; a payload
    of odd length is malformed. *)
Definition rawAudio : StreamKind := {|
  parseStreamProperties := fun _ payload =>
    if Nat.even (length payload) then inr (Nat.div2 (length payload), 0%nat)
    else inl MalformedPayload
|}.

Definition Stream : Type := @InboundAudioStream.InboundAudioStream timingStats.

(** A stream of 100 frames of 240 samples that has not been used yet, with
    the default values of the settings in its members. *)
Definition idleStream : Stream :=
  InboundAudioStream.Build (TS := timingStats)
    (AudioRingBuffer.create 240 INBOUND_RING_BUFFER_FRAME_CAPACITY)
    false 0
    DEFAULT_DYNAMIC_JITTER_BUFFERS DEFAULT_STATIC_DESIRED_JITTER_BUFFER_FRAMES
    DEFAULT_USE_STDEV_FOR_JITTER_CALC
    1 DEFAULT_MAX_FRAMES_OVER_DESIRED
    false false 0 0 0 0
    SequenceNumberStats.create
    0
    (windowNew DEFAULT_WINDOW_SECONDS_FOR_DESIRED_CALC_ON_TOO_MANY_STARVES) 0
    (windowNew DEFAULT_WINDOW_SECONDS_FOR_DESIRED_CALC_ON_TOO_MANY_STARVES) 0
    (windowNew DEFAULT_WINDOW_SECONDS_FOR_DESIRED_REDUCTION)
    DEFAULT_WINDOW_SECONDS_FOR_DESIRED_CALC_ON_TOO_MANY_STARVES []
    DEFAULT_WINDOW_STARVE_THRESHOLD
    weightedNew 0
    (windowNew STATS_FOR_STATS_PACKET_WINDOW_SECONDS).

(** A packet of [frames] frames of 240 silent samples with sequence number
    [seq]. *)
Definition audioPacket (seq : Z) (frames : nat) : InboundAudioStream.Packet :=
  InboundAudioStream.BuildPacket 0 4 seq (repeat Byte.x00 (frames * 480)).

(** The calls that feed packets with the given sequence numbers, one frame
    each, one every 10 ms. *)
Definition feed (seqs : list Z) : list (Z * InboundAudioStream.Operation) :=
  map (fun q => (10000 * (q + 1), InboundAudioStream.ParseData (audioPacket q 1))) seqs.

(** Static mode with a depth of one frame (scenario 1 of section 8). *)
Definition staticSettings : Settings.Settings :=
  Settings.Settings7 10 false 1 false 3 50 10.

End Reference.

(** * PathUtils.cpp and the dialogs

    The rest of the sources: the pure functions of [PathUtils.cpp]
    ([fileNameWithoutExtension], [findMostRecentFileExtension],
    [defaultScriptsLocation]) and the two QML dialogs ([LoginDialog.cpp],
    [AddressBarDialog.cpp]).  They use Qt's [QString], which is modelled
    first. *)

Module Qt.

Import Ascii String.

(** Qt's [QChar] is a UTF-16 code unit, and a [QString] is a sequence of
    them: the length, the comparison, [endsWith] and [left] all count and cut
    code units.  A null and an empty [QString] compare equal in Qt and both
    are the empty list here. *)
Definition QChar : Type := N.
Definition QString : Type := list QChar.

(** A string literal of the source: one code unit for each character. *)
Definition literal (s : string) : QString := map N_of_ascii (list_ascii_of_string s).

(** [QString::count()] and [QString::size()]: the number of characters. *)
Definition count (s : QString) : Z := Z.of_nat (List.length s).

(** [QString::isEmpty()]. *)
Definition isEmpty (s : QString) : bool :=
  match s with [] => true | _ :: _ => false end.

(** [operator==] on [QString]: the same code units in the same order. *)
Fixpoint equal (a b : QString) : bool :=
  match a, b with
  | [], [] => true
  | x :: a', y :: b' => (x =? y)%N && equal a' b'
  | _, _ => false
  end.

(** [QString::toLower()] is Qt's, and it is not among the sources.  It lowers
    by the case mappings of Unicode, the special ones included: the string
    it returns need not have the length of the one it is given (U+0130
    lowers to the two code units U+0069 U+0307).  The functions of
    PathUtils.cpp take it as it is, and nothing is assumed of it. *)
Class CaseMapping : Type := {
  toLower : QString -> QString
}.

(** What [toLower] does to a character of Latin-1: the letters A to Z, and
    the letters from U+00C0 to U+00DE other than the multiplication sign
    U+00D7, move 32 code points up; every other one stays. *)
Definition latin1ToLowerChar (c : QChar) : QChar :=
  if ((65 <=? c) && (c <=? 90) || (192 <=? c) && (c <=? 222) && negb (c =? 215))%N
  then (c + 32)%N else c.

(** The case mapping of the strings of Latin-1 characters, on which it is
    Qt's; the concrete file names below are lowered by it. *)
Definition latin1 : CaseMapping := {| toLower := map latin1ToLowerChar |}.

(** [QString::endsWith(s)], case sensitive: [suffix] is no longer than the
    string and equals its last characters.  (Of a null string Qt says that it
    ends with null suffixes only; the functions below return the empty name
    in either case.) *)
Definition endsWith (s suffix : QString) : bool :=
  (List.length suffix <=? List.length s)%nat
  && equal (skipn (List.length s - List.length suffix) s) suffix.

(** [QString::left(n)]: the [n] leftmost characters; "the entire string is
    returned if n is greater than or equal to size(), or less than zero" (Qt
    documentation). *)
Definition left (n : Z) (s : QString) : QString :=
  if (n <? 0) || (count s <=? n) then s else firstn (Z.to_nat n) s.

End Qt.

Module PathUtils.

Import Ascii String Qt.

Section FileNames.

Context {CM : CaseMapping}.

(** The [foreach] loop of [fileNameWithoutExtension] (lines 444-448 of the
    part of the sources that holds PathUtils.cpp): the first extension that
    the lowered file name ends with, lowered itself, decides. *)
Fixpoint fileNameWithoutExtension_foreach (fileName fileNameLowered : QString)
    (possibleExtensions : list QString) : QString :=
  match possibleExtensions with
  | [] => fileName
  | possibleExtension :: rest =>
      if endsWith fileNameLowered (toLower possibleExtension)
      then left (count fileName - count possibleExtension - 1) fileName
      else fileNameWithoutExtension_foreach fileName fileNameLowered rest
  end.

(** [fileNameWithoutExtension], lines 442-450. *)
Definition fileNameWithoutExtension (fileName : QString) (possibleExtensions : list QString)
  : QString :=
  let fileNameLowered := toLower fileName in
  fileNameWithoutExtension_foreach fileName fileNameLowered possibleExtensions.

(** What [QFileInfo] tells of a file: whether it exists, and when it was last
    modified, in milliseconds since the epoch ([QDateTime]). *)
Record QFileInfo : Type := BuildFileInfo {
  exists_ : bool;
  lastModified : Z
}.

(** The file system, as [QFileInfo fileInfo(fileName)] reads it. *)
Definition FileSystem : Type := QString -> QFileInfo.

(** [sansExt + "." + possibleExtension], line 457. *)
Definition withExtension (sansExt possibleExtension : QString) : QString :=
  sansExt ++ literal "." ++ possibleExtension.

(** The [foreach] loop of [findMostRecentFileExtension], lines 456-463; the
    result is [newestFileName] with [newestTime]. *)
Fixpoint findMostRecentFileExtension_foreach (files : FileSystem) (sansExt : QString)
    (possibleExtensions : list QString) (newestFileName : QString) (newestTime : Z)
  : QString * Z :=
  match possibleExtensions with
  | [] => (newestFileName, newestTime)
  | possibleExtension :: rest =>
      let fileName := withExtension sansExt possibleExtension in
      let fileInfo := files fileName in
      if exists_ fileInfo && (newestTime <? lastModified fileInfo)
      then findMostRecentFileExtension_foreach files sansExt rest fileName
             (lastModified fileInfo)
      else findMostRecentFileExtension_foreach files sansExt rest newestFileName newestTime
  end.

(** [findMostRecentFileExtension], lines 452-465.
    [QDateTime::fromMSecsSinceEpoch(0)] is the time 0. *)
Definition findMostRecentFileExtension (files : FileSystem) (originalFileName : QString)
    (possibleExtensions : list QString) : QString :=
  let sansExt := fileNameWithoutExtension originalFileName possibleExtensions in
  fst (findMostRecentFileExtension_foreach files sansExt possibleExtensions
         originalFileName 0).

End FileNames.

Section DefaultScriptsLocation.

(** The path the platform gives ([applicationDirPath()] with "/scripts" or
    its macOS and Android counterparts, lines 480-486), and the conversion of
    a path to the URL returned
    ([QUrl::fromLocalFile(QFileInfo(path).canonicalFilePath())], line 490):
    both are Qt's and the platform's. *)
Variable platformScriptsPath : QString.
Variable QUrl : Type.
Variable canonicalUrl : QString -> QUrl.

(** [PathUtils::defaultScriptsLocation], lines 467-491.  The function-local
    [static QString overriddenDefaultScriptsLocation] is the state: the call
    takes its value and gives the URL and its new value. *)
Definition defaultScriptsLocation (newDefaultPath : QString)
    (overriddenDefaultScriptsLocation : QString) : QUrl * QString :=
  let overriddenDefaultScriptsLocation :=
    if negb (isEmpty newDefaultPath) then newDefaultPath
    else overriddenDefaultScriptsLocation in
  let path :=
    if negb (isEmpty overriddenDefaultScriptsLocation)
    then overriddenDefaultScriptsLocation
    else platformScriptsPath in
  (canonicalUrl path, overriddenDefaultScriptsLocation).

(** The static starts as [""] (line 468). *)
Definition initialOverride : QString := [].

(** The calls with the arguments [calls], in order, from the value
    [overridden] of the static: the URLs returned and the last value. *)
Fixpoint defaultScriptsLocation_calls (calls : list QString) (overridden : QString)
  : list QUrl * QString :=
  match calls with
  | [] => ([], overridden)
  | newDefaultPath :: rest =>
      let (url, overridden') := defaultScriptsLocation newDefaultPath overridden in
      let (urls, final) := defaultScriptsLocation_calls rest overridden' in
      (url :: urls, final)
  end.

End DefaultScriptsLocation.

(** The last argument of [calls] that is not empty, if there is one. *)
Fixpoint lastNonEmpty (calls : list QString) : option QString :=
  match calls with
  | [] => None
  | p :: rest =>
      match lastNonEmpty rest with
      | Some q => Some q
      | None => if isEmpty p then None else Some p
      end
  end.

End PathUtils.

Module LoginDialog.

Import Ascii String Qt.

(** What a member function of a dialog does besides changing the dialog:
    the signals it emits, the calls it makes on other objects, and the lines
    it sends to [qDebug()] (the values streamed, in order). *)
Inductive Effect : Type :=
| emit_statusTextChanged
| qDebug (values : list QString)
| AccountManager_requestAccessToken (username password : QString)
| hide.

(** The data members the member functions of LoginDialog.cpp read and
    write. *)
Record LoginDialog : Type := Build {
  _statusText : QString;
  _rootUrl : QString
}.

(** [LoginDialog::setStatusText], lines 52-57 of LoginDialog.cpp. *)
Definition setStatusText (a : QString) (d : LoginDialog) : LoginDialog * list Effect :=
  if negb (equal a (_statusText d))
  then (Build a (_rootUrl d), [emit_statusTextChanged])
  else (d, []).


(** [LoginDialog::login], lines 67-71. *)
Definition login (username password : QString) (d : LoginDialog)
  : LoginDialog * list Effect :=
  let (d1, emitted) := setStatusText (literal "Authenticating...") d in
  (d1,
   [qDebug [literal "Attempting to login "; username]]
   ++ emitted
   ++ [AccountManager_requestAccessToken username password]).

(** [LoginDialog::openUrl], lines 73-75. *)
Definition openUrl (url : QString) (d : LoginDialog) : LoginDialog * list Effect :=
  (d, [qDebug [url]]).

(** [LoginDialog::handleLoginCompleted], lines 44-46. *)
Definition handleLoginCompleted (authURL : QString) (d : LoginDialog)
  : LoginDialog * list Effect :=
  (d, [hide]).

(** The double quote, which the literal of line 49 escapes. *)
Definition doubleQuote : QString := [34%N].

(** [LoginDialog::handleLoginFailed], lines 48-50. *)
Definition handleLoginFailed (d : LoginDialog) : LoginDialog * list Effect :=
  setStatusText
    (literal "<font color = " ++ doubleQuote ++ literal "#267077" ++ doubleQuote
     ++ literal ">Invalid username or password.< / font>") d.

(** The calls the QML side can make on the dialog. *)
Inductive Call : Type :=
| SetStatusText (a : QString)
| Login (username password : QString)
| OpenUrl (url : QString)
| HandleLoginCompleted (authURL : QString)
| HandleLoginFailed.

Definition call (c : Call) (d : LoginDialog) : LoginDialog * list Effect :=
  match c with
  | SetStatusText a => setStatusText a d
  | Login username password => login username password d
  | OpenUrl url => openUrl url d
  | HandleLoginCompleted authURL => handleLoginCompleted authURL d
  | HandleLoginFailed => handleLoginFailed d
  end.

(** A sequence of calls: the dialog left and all the effects, in order. *)
Fixpoint calls (cs : list Call) (d : LoginDialog) : LoginDialog * list Effect :=
  match cs with
  | [] => (d, [])
  | c :: rest =>
      let (d1, effects1) := call c d in
      let (d2, effects2) := calls rest d1 in
      (d2, effects1 ++ effects2)
  end.

(** *** toggleAction *)

(** The slots [toggleAction] connects the login action to. *)
Inductive Slot : Type :=
| AccountManager_logout
| LoginDialog_show
| otherSlot (id : nat).

(** The signals of a [QAction]. *)
Inductive QActionSignal : Type := triggered | toggled | changed | hovered.

(** A [QAction]: its text and the connections of its signals. *)
Record QAction : Type := BuildAction {
  text : QString;
  connections : list (QActionSignal * Slot)
}.

(** What [toggleAction] reads of the [AccountManager]. *)
Record AccountManager : Type := BuildAccountManager {
  isLoggedIn : bool;
  getUsername : QString
}.

(** [LoginDialog::toggleAction], lines 27-42.  [loginAction] is what
    [getActionForOption(MenuOption::Login)] returns; [Q_CHECK_PTR] ends the
    program on a null pointer ([None]).  [disconnect(loginAction, 0, 0, 0)]
    removes every connection of the action's signals. *)
Definition toggleAction (accountManager : AccountManager) (loginAction : option QAction)
  : option QAction :=
  match loginAction with
  | None => None
  | Some _ =>
      if isLoggedIn accountManager then
        Some (BuildAction (literal "Logout " ++ getUsername accountManager)
                [(triggered, AccountManager_logout)])
      else
        Some (BuildAction (literal "Login") [(triggered, LoginDialog_show)])
  end.

(** [toggleAction] called once for each state of the account manager in
    [states], in order, on the same action. *)
Fixpoint toggleAction_calls (states : list AccountManager) (loginAction : option QAction)
  : option QAction :=
  match states with
  | [] => loginAction
  | accountManager :: rest =>
      toggleAction_calls rest (toggleAction accountManager loginAction)
  end.

End LoginDialog.

Module AddressBarDialog.

Import Ascii String Qt.

(** The signals of the [AddressManager] the constructor connects (lines
    22-24 of AddressBarDialog.cpp). *)
Inductive AddressManagerSignal : Type :=
| lookupResultIsOffline
| lookupResultIsNotFound
| lookupResultsFinished.

(** What a member function does besides changing the dialog. *)
Inductive Effect : Type :=
| qDebug (values : list QString)
| AddressManager_handleLookupString (address : QString)
| QMessageBox_information (title text : QString).

(** The dialog: of its parent item, whether it is enabled. *)
Record AddressBarDialog : Type := Build {
  parentEnabled : bool
}.

(** [AddressBarDialog::hide], lines 27-29. *)
Definition hide (d : AddressBarDialog) : AddressBarDialog * list Effect :=
  (Build false, []).

(** [AddressBarDialog::loadAddress], lines 31-36. *)
Definition loadAddress (address : QString) (d : AddressBarDialog)
  : AddressBarDialog * list Effect :=
  (d,
   [qDebug [literal "Called LoadAddress with address "; address]]
   ++ (if negb (isEmpty address) then [AddressManager_handleLookupString address]
       else [])).

(** [AddressBarDialog::displayAddressOfflineMessage], lines 39-42. *)
Definition displayAddressOfflineMessage (d : AddressBarDialog)
  : AddressBarDialog * list Effect :=
  (d, [QMessageBox_information (literal "Address offline")
         (literal "That user or place is currently offline.")]).

(** [AddressBarDialog::displayAddressNotFoundMessage], lines 45-48. *)
Definition displayAddressNotFoundMessage (d : AddressBarDialog)
  : AddressBarDialog * list Effect :=
  (d, [QMessageBox_information (literal "Address not found")
         (literal "There is no address information for that user or place.")]).

(** The connections the constructor makes, lines 20-25: the slot that runs
    when the address manager emits [signal]. *)
Definition deliver (signal : AddressManagerSignal) (d : AddressBarDialog)
  : AddressBarDialog * list Effect :=
  match signal with
  | lookupResultIsOffline => displayAddressOfflineMessage d
  | lookupResultIsNotFound => displayAddressNotFoundMessage d
  | lookupResultsFinished => hide d
  end.

(** What happens to the dialog: QML calls [loadAddress], or the address
    manager emits a signal. *)
Inductive Event : Type :=
| LoadAddress (address : QString)
| Emitted (signal : AddressManagerSignal).

Definition handle (e : Event) (d : AddressBarDialog) : AddressBarDialog * list Effect :=
  match e with
  | LoadAddress address => loadAddress address d
  | Emitted signal => deliver signal d
  end.

(** A sequence of events: the dialog left and all the effects, in order. *)
Fixpoint handleAll (events : list Event) (d : AddressBarDialog)
  : AddressBarDialog * list Effect :=
  match events with
  | [] => (d, [])
  | e :: rest =>
      let (d1, effects1) := handle e d in
      let (d2, effects2) := handleAll rest d1 in
      (d2, effects1 ++ effects2)
  end.

End AddressBarDialog.

(** ** Predicates of the properties *)

(** A ring as the constructor lets it be ([frameSampleCount >= 1],
    [frameCapacity >= 1]) that holds no more than its capacity. *)
Definition ringWellFormed (rb : AudioRingBuffer.AudioRingBuffer) : Prop :=
  1 <= AudioRingBuffer.numFrameSamples rb
  /\ 1 <= AudioRingBuffer.frameCapacity rb
  /\ 0 <= AudioRingBuffer.samplesAvailable rb <= AudioRingBuffer.sampleCapacity rb.

(** [x] lies in the interval desiredFrames is clamped to. *)
Definition inClampInterval {TS : TimingStats} (s : InboundAudioStream.InboundAudioStream)
    (x : Z) : Prop :=
  0 <= x <= InboundAudioStream.getFrameCapacity s - InboundAudioStream._maxFramesOverDesired s.

(** desiredFrames and the two estimates lie in that interval. *)
Definition depthsInClampInterval {TS : TimingStats}
    (s : InboundAudioStream.InboundAudioStream) : Prop :=
  inClampInterval s (InboundAudioStream._desiredJitterBufferFrames s)
  /\ inClampInterval s (InboundAudioStream._calculatedJitterBufferFramesUsingMaxGap s)
  /\ inClampInterval s (InboundAudioStream._calculatedJitterBufferFramesUsingStDev s).

(** desiredFrames is the static setting, clamped. *)
Definition pinnedToStatic {TS : TimingStats} (s : InboundAudioStream.InboundAudioStream)
  : Prop :=
  InboundAudioStream._desiredJitterBufferFrames s =
  InboundAudioStream.clampDesiredJitterBufferFramesValue s
    (InboundAudioStream._staticDesiredJitterBufferFrames s).

(** The members the depth invariants read are the same in [s] and [s']. *)
Definition sameDepthMembers {TS : TimingStats}
    (s s' : InboundAudioStream.InboundAudioStream) : Prop :=
  InboundAudioStream._ringBuffer s' = InboundAudioStream._ringBuffer s
  /\ InboundAudioStream._dynamicJitterBuffers s' = InboundAudioStream._dynamicJitterBuffers s
  /\ InboundAudioStream._staticDesiredJitterBufferFrames s' =
     InboundAudioStream._staticDesiredJitterBufferFrames s
  /\ InboundAudioStream._maxFramesOverDesired s' = InboundAudioStream._maxFramesOverDesired s
  /\ InboundAudioStream._desiredJitterBufferFrames s' =
     InboundAudioStream._desiredJitterBufferFrames s
  /\ InboundAudioStream._calculatedJitterBufferFramesUsingMaxGap s' =
     InboundAudioStream._calculatedJitterBufferFramesUsingMaxGap s
  /\ InboundAudioStream._calculatedJitterBufferFramesUsingStDev s' =
     InboundAudioStream._calculatedJitterBufferFramesUsingStDev s.

(** What every member function other than a setter guarantees of the stream
    [s'] it leaves, given the stream [s] it found: the same geometry and depth
    settings, a well-formed ring, and the two depth invariants kept. *)
Definition evolves {TS : TimingStats} (s s' : InboundAudioStream.InboundAudioStream) : Prop :=
  InboundAudioStream.getNumFrameSamples s' = InboundAudioStream.getNumFrameSamples s
  /\ InboundAudioStream.getFrameCapacity s' = InboundAudioStream.getFrameCapacity s
  /\ InboundAudioStream._dynamicJitterBuffers s' = InboundAudioStream._dynamicJitterBuffers s
  /\ InboundAudioStream._staticDesiredJitterBufferFrames s' =
     InboundAudioStream._staticDesiredJitterBufferFrames s
  /\ InboundAudioStream._maxFramesOverDesired s' = InboundAudioStream._maxFramesOverDesired s
  /\ (ringWellFormed (InboundAudioStream._ringBuffer s) ->
      ringWellFormed (InboundAudioStream._ringBuffer s'))
  /\ (InboundAudioStream._dynamicJitterBuffers s = false ->
      pinnedToStatic s -> pinnedToStatic s')
  /\ (InboundAudioStream._maxFramesOverDesired s <= InboundAudioStream.getFrameCapacity s ->
      depthsInClampInterval s -> depthsInClampInterval s').

(** The calls that leave the settings DepthPolicy reads (dynamicJitterBuffers,
    staticDesiredJitterBufferFrames, maxFramesOverDesired) as they are. *)
Definition keepsDepthSettings (op : InboundAudioStream.Operation) : bool :=
  match op with
  | InboundAudioStream.SetSettings _
  | InboundAudioStream.SetMaxFramesOverDesired _
  | InboundAudioStream.SetDynamicJitterBuffers _
  | InboundAudioStream.SetStaticDesiredJitterBufferFrames _ => false
  | _ => true
  end.



(** The calls that leave maxFramesOverDesired as it is. *)
Definition keepsMaxFramesOverDesired (op : InboundAudioStream.Operation) : bool :=
  match op with
  | InboundAudioStream.SetSettings _
  | InboundAudioStream.SetMaxFramesOverDesired _ => false
  | _ => true
  end.

(** The five counters of [s'] are at least those of [s]. *)
Definition countersGrow {TS : TimingStats} (s s' : InboundAudioStream.InboundAudioStream)
  : Prop :=
  InboundAudioStream.getPacketsReceived s <= InboundAudioStream.getPacketsReceived s'
  /\ InboundAudioStream.getStarveCount s <= InboundAudioStream.getStarveCount s'
  /\ InboundAudioStream.getOverflowCount s <= InboundAudioStream.getOverflowCount s'
  /\ InboundAudioStream.getSilentFramesDropped s <=
     InboundAudioStream.getSilentFramesDropped s'
  /\ InboundAudioStream._oldFramesDropped s <= InboundAudioStream._oldFramesDropped s'.

(** The calls that reset the stats: [reset()], [resetStats()], and
    [parseData] of a packet whose sequence number the tracker finds
    unreasonable in the state [s] (section 4.6, step 3: it calls
    [reset()]). *)
Definition resetsStats {TS : TimingStats} (op : InboundAudioStream.Operation)
    (s : InboundAudioStream.InboundAudioStream) : bool :=
  match op with
  | InboundAudioStream.Reset | InboundAudioStream.ResetStats => true
  | InboundAudioStream.ParseData packet =>
      match snd (SequenceNumberStats.sequenceNumberReceived
                   (InboundAudioStream.sequenceNumber packet)
                   (InboundAudioStream._incomingSequenceNumberStats s)) with
      | SequenceNumberStats.Unreasonable => true
      | _ => false
      end
  | _ => false
  end.

(** *** Of PathUtils.cpp and the dialogs *)

(** How often [statusTextChanged] is emitted among the effects. *)
Definition statusChanges (effects : list LoginDialog.Effect) : nat :=
  List.length
    (filter (fun e => match e with
                      | LoginDialog.emit_statusTextChanged => true
                      | _ => false
                      end) effects).

(** The access tokens requested among the effects: user name and password,
    in order. *)
Definition tokenRequests (effects : list LoginDialog.Effect)
  : list (Qt.QString * Qt.QString) :=
  flat_map (fun e => match e with
                     | LoginDialog.AccountManager_requestAccessToken u p => [(u, p)]
                     | _ => []
                     end) effects.

(** The credentials of the [Login] calls of a sequence, in order. *)
Definition loginCredentials (cs : list LoginDialog.Call)
  : list (Qt.QString * Qt.QString) :=
  flat_map (fun c => match c with
                     | LoginDialog.Login u p => [(u, p)]
                     | _ => []
                     end) cs.

(** The strings handed to [AddressManager::handleLookupString] among the
    effects, in order. *)
Definition lookupStrings (effects : list AddressBarDialog.Effect) : list Qt.QString :=
  flat_map (fun e => match e with
                     | AddressBarDialog.AddressManager_handleLookupString a => [a]
                     | _ => []
                     end) effects.

(** The message boxes shown among the effects: title and text. *)
Definition messageBoxes (effects : list AddressBarDialog.Effect)
  : list (Qt.QString * Qt.QString) :=
  flat_map (fun e => match e with
                     | AddressBarDialog.QMessageBox_information title text =>
                         [(title, text)]
                     | _ => []
                     end) effects.

(** The addresses of the [LoadAddress] events that are not empty, in
    order. *)
Definition nonEmptyAddresses (events : list AddressBarDialog.Event) : list Qt.QString :=
  flat_map (fun e => match e with
                     | AddressBarDialog.LoadAddress a =>
                         if Qt.isEmpty a then [] else [a]
                     | _ => []
                     end) events.

(** The event is a lookup failure: the address is offline or not found. *)
Definition isLookupFailure (e : AddressBarDialog.Event) : bool :=
  match e with
  | AddressBarDialog.Emitted AddressBarDialog.lookupResultIsOffline => true
  | AddressBarDialog.Emitted AddressBarDialog.lookupResultIsNotFound => true
  | _ => false
  end.

(** The event is the end of a lookup. *)
Definition isLookupFinished (e : AddressBarDialog.Event) : bool :=
  match e with
  | AddressBarDialog.Emitted AddressBarDialog.lookupResultsFinished => true
  | _ => false
  end.

(** *** Concrete inputs *)

Section ConcreteInputs.

Import Ascii String Qt.

(** A directory with [model.obj] written at 100 ms and [model.fbx] written
    at 250 ms; nothing else exists. *)
Definition twoModels : PathUtils.FileSystem :=
  fun name =>
    if equal name (literal "model.obj") then PathUtils.BuildFileInfo true 100
    else if equal name (literal "model.fbx") then PathUtils.BuildFileInfo true 250
    else PathUtils.BuildFileInfo false 0.

(** A directory where [model.obj] and [model.fbx] were both written at
    100 ms. *)
Definition twinModels : PathUtils.FileSystem :=
  fun name =>
    if equal name (literal "model.obj") then PathUtils.BuildFileInfo true 100
    else if equal name (literal "model.fbx") then PathUtils.BuildFileInfo true 100
    else PathUtils.BuildFileInfo false 0.

End ConcreteInputs.

(** * Properties *)

Import AudioRingBuffer InboundAudioStream.

(** C1. In the seven-argument constructor the member
    [_windowSecondsForDesiredReduction] is initialised from the sixth
    argument: for every argument tuple the constructed object's reduction
    window equals the sixth argument, and two calls that differ only in the
    seventh argument construct the same object. *)
Theorem Settings7_reduction_window_is_sixth_argument :
  forall (m : Z) (d : bool) (st : Z) (u : bool) (th w6 w7 w7' : Z),
    Settings._windowSecondsForDesiredReduction (Settings.Settings7 m d st u th w6 w7) = w6
    /\ Settings.Settings7 m d st u th w6 w7 = Settings.Settings7 m d st u th w6 w7'.
Proof.
  intros m d st u th w6 w7 w7'. split.
  - reflexivity.
  - unfold Settings.Settings7. reflexivity.
Qed.

(** C6. A default-constructed [Settings] has maxFramesOverDesired = 10,
    dynamicJitterBuffers = true, staticDesiredJitterBufferFrames = 1,
    useStDevForJitterCalc = false, windowStarveThreshold = 3,
    windowSecondsForDesiredCalcOnTooManyStarves = 50 and
    windowSecondsForDesiredReduction = 10. *)
Theorem Settings0_defaults :
  Settings._maxFramesOverDesired Settings.Settings0 = 10
  /\ Settings._dynamicJitterBuffers Settings.Settings0 = true
  /\ Settings._staticDesiredJitterBufferFrames Settings.Settings0 = 1
  /\ Settings._useStDevForJitterCalc Settings.Settings0 = false
  /\ Settings._windowStarveThreshold Settings.Settings0 = 3
  /\ Settings._windowSecondsForDesiredCalcOnTooManyStarves Settings.Settings0 = 50
  /\ Settings._windowSecondsForDesiredReduction Settings.Settings0 = 10.
Proof.
  unfold Settings.Settings0; cbn [Settings._maxFramesOverDesired
    Settings._dynamicJitterBuffers Settings._staticDesiredJitterBufferFrames
    Settings._useStDevForJitterCalc Settings._windowStarveThreshold
    Settings._windowSecondsForDesiredCalcOnTooManyStarves
    Settings._windowSecondsForDesiredReduction].
  repeat split.
Qed.

Section Properties.

Context {TS : TimingStats} {SK : StreamKind}.

(** C5. The calculated jitter-buffer depth that
    [getCalculatedJitterBufferFrames] returns is the std-dev estimate (Philip's
    method) when [_useStDevForJitterCalc] is true and the max-gap estimate
    (Freddy's method) when it is false, in every state of the stream; so a
    call of [setUseStDevForJitterCalc] selects the estimate returned. *)
Theorem getCalculatedJitterBufferFrames_selects_estimate :
  forall (s : InboundAudioStream),
    getCalculatedJitterBufferFrames s =
      (if _useStDevForJitterCalc s
       then getCalculatedJitterBufferFramesUsingStDev s
       else getCalculatedJitterBufferFramesUsingMaxGap s)
    /\ getCalculatedJitterBufferFrames (setUseStDevForJitterCalc true s) =
         getCalculatedJitterBufferFramesUsingStDev s
    /\ getCalculatedJitterBufferFrames (setUseStDevForJitterCalc false s) =
         getCalculatedJitterBufferFramesUsingMaxGap s.
Proof.
  intros s. unfold getCalculatedJitterBufferFrames. repeat split.
Qed.

(** C10. Each of the inline setters [setMaxFramesOverDesired],
    [setUseStDevForJitterCalc] and [setWindowStarveThreshold] stores its
    argument, whatever its value (zero and negative integers included, nothing
    is clamped or checked), into exactly one member, and leaves every other
    member of the stream as it was. *)
Theorem inline_setters_store_into_one_member :
  forall (s : InboundAudioStream) (v : Z) (b : bool),
    (_maxFramesOverDesired (setMaxFramesOverDesired v s) = v
     /\ _ringBuffer (setMaxFramesOverDesired v s) = _ringBuffer s
     /\ _lastPopSucceeded (setMaxFramesOverDesired v s) = _lastPopSucceeded s
     /\ _lastPopOutput (setMaxFramesOverDesired v s) = _lastPopOutput s
     /\ _dynamicJitterBuffers (setMaxFramesOverDesired v s) = _dynamicJitterBuffers s
     /\ _staticDesiredJitterBufferFrames (setMaxFramesOverDesired v s) = _staticDesiredJitterBufferFrames s
     /\ _useStDevForJitterCalc (setMaxFramesOverDesired v s) = _useStDevForJitterCalc s
     /\ _desiredJitterBufferFrames (setMaxFramesOverDesired v s) = _desiredJitterBufferFrames s
     /\ _isStarved (setMaxFramesOverDesired v s) = _isStarved s
     /\ _hasStarted (setMaxFramesOverDesired v s) = _hasStarted s
     /\ _consecutiveNotMixedCount (setMaxFramesOverDesired v s) = _consecutiveNotMixedCount s
     /\ _starveCount (setMaxFramesOverDesired v s) = _starveCount s
     /\ _silentFramesDropped (setMaxFramesOverDesired v s) = _silentFramesDropped s
     /\ _oldFramesDropped (setMaxFramesOverDesired v s) = _oldFramesDropped s
     /\ _incomingSequenceNumberStats (setMaxFramesOverDesired v s) = _incomingSequenceNumberStats s
     /\ _lastPacketReceivedTime (setMaxFramesOverDesired v s) = _lastPacketReceivedTime s
     /\ _timeGapStatsForDesiredCalcOnTooManyStarves (setMaxFramesOverDesired v s) = _timeGapStatsForDesiredCalcOnTooManyStarves s
     /\ _calculatedJitterBufferFramesUsingMaxGap (setMaxFramesOverDesired v s) = _calculatedJitterBufferFramesUsingMaxGap s
     /\ _stdevStatsForDesiredCalcOnTooManyStarves (setMaxFramesOverDesired v s) = _stdevStatsForDesiredCalcOnTooManyStarves s
     /\ _calculatedJitterBufferFramesUsingStDev (setMaxFramesOverDesired v s) = _calculatedJitterBufferFramesUsingStDev s
     /\ _timeGapStatsForDesiredReduction (setMaxFramesOverDesired v s) = _timeGapStatsForDesiredReduction s
     /\ _starveHistoryWindowSeconds (setMaxFramesOverDesired v s) = _starveHistoryWindowSeconds s
     /\ _starveHistory (setMaxFramesOverDesired v s) = _starveHistory s
     /\ _starveThreshold (setMaxFramesOverDesired v s) = _starveThreshold s
     /\ _framesAvailableStat (setMaxFramesOverDesired v s) = _framesAvailableStat s
     /\ _currentJitterBufferFrames (setMaxFramesOverDesired v s) = _currentJitterBufferFrames s
     /\ _timeGapStatsForStatsPacket (setMaxFramesOverDesired v s) = _timeGapStatsForStatsPacket s)
    /\
    (_useStDevForJitterCalc (setUseStDevForJitterCalc b s) = b
     /\ _ringBuffer (setUseStDevForJitterCalc b s) = _ringBuffer s
     /\ _lastPopSucceeded (setUseStDevForJitterCalc b s) = _lastPopSucceeded s
     /\ _lastPopOutput (setUseStDevForJitterCalc b s) = _lastPopOutput s
     /\ _dynamicJitterBuffers (setUseStDevForJitterCalc b s) = _dynamicJitterBuffers s
     /\ _staticDesiredJitterBufferFrames (setUseStDevForJitterCalc b s) = _staticDesiredJitterBufferFrames s
     /\ _desiredJitterBufferFrames (setUseStDevForJitterCalc b s) = _desiredJitterBufferFrames s
     /\ _maxFramesOverDesired (setUseStDevForJitterCalc b s) = _maxFramesOverDesired s
     /\ _isStarved (setUseStDevForJitterCalc b s) = _isStarved s
     /\ _hasStarted (setUseStDevForJitterCalc b s) = _hasStarted s
     /\ _consecutiveNotMixedCount (setUseStDevForJitterCalc b s) = _consecutiveNotMixedCount s
     /\ _starveCount (setUseStDevForJitterCalc b s) = _starveCount s
     /\ _silentFramesDropped (setUseStDevForJitterCalc b s) = _silentFramesDropped s
     /\ _oldFramesDropped (setUseStDevForJitterCalc b s) = _oldFramesDropped s
     /\ _incomingSequenceNumberStats (setUseStDevForJitterCalc b s) = _incomingSequenceNumberStats s
     /\ _lastPacketReceivedTime (setUseStDevForJitterCalc b s) = _lastPacketReceivedTime s
     /\ _timeGapStatsForDesiredCalcOnTooManyStarves (setUseStDevForJitterCalc b s) = _timeGapStatsForDesiredCalcOnTooManyStarves s
     /\ _calculatedJitterBufferFramesUsingMaxGap (setUseStDevForJitterCalc b s) = _calculatedJitterBufferFramesUsingMaxGap s
     /\ _stdevStatsForDesiredCalcOnTooManyStarves (setUseStDevForJitterCalc b s) = _stdevStatsForDesiredCalcOnTooManyStarves s
     /\ _calculatedJitterBufferFramesUsingStDev (setUseStDevForJitterCalc b s) = _calculatedJitterBufferFramesUsingStDev s
     /\ _timeGapStatsForDesiredReduction (setUseStDevForJitterCalc b s) = _timeGapStatsForDesiredReduction s
     /\ _starveHistoryWindowSeconds (setUseStDevForJitterCalc b s) = _starveHistoryWindowSeconds s
     /\ _starveHistory (setUseStDevForJitterCalc b s) = _starveHistory s
     /\ _starveThreshold (setUseStDevForJitterCalc b s) = _starveThreshold s
     /\ _framesAvailableStat (setUseStDevForJitterCalc b s) = _framesAvailableStat s
     /\ _currentJitterBufferFrames (setUseStDevForJitterCalc b s) = _currentJitterBufferFrames s
     /\ _timeGapStatsForStatsPacket (setUseStDevForJitterCalc b s) = _timeGapStatsForStatsPacket s)
    /\
    (_starveThreshold (setWindowStarveThreshold v s) = v
     /\ _ringBuffer (setWindowStarveThreshold v s) = _ringBuffer s
     /\ _lastPopSucceeded (setWindowStarveThreshold v s) = _lastPopSucceeded s
     /\ _lastPopOutput (setWindowStarveThreshold v s) = _lastPopOutput s
     /\ _dynamicJitterBuffers (setWindowStarveThreshold v s) = _dynamicJitterBuffers s
     /\ _staticDesiredJitterBufferFrames (setWindowStarveThreshold v s) = _staticDesiredJitterBufferFrames s
     /\ _useStDevForJitterCalc (setWindowStarveThreshold v s) = _useStDevForJitterCalc s
     /\ _desiredJitterBufferFrames (setWindowStarveThreshold v s) = _desiredJitterBufferFrames s
     /\ _maxFramesOverDesired (setWindowStarveThreshold v s) = _maxFramesOverDesired s
     /\ _isStarved (setWindowStarveThreshold v s) = _isStarved s
     /\ _hasStarted (setWindowStarveThreshold v s) = _hasStarted s
     /\ _consecutiveNotMixedCount (setWindowStarveThreshold v s) = _consecutiveNotMixedCount s
     /\ _starveCount (setWindowStarveThreshold v s) = _starveCount s
     /\ _silentFramesDropped (setWindowStarveThreshold v s) = _silentFramesDropped s
     /\ _oldFramesDropped (setWindowStarveThreshold v s) = _oldFramesDropped s
     /\ _incomingSequenceNumberStats (setWindowStarveThreshold v s) = _incomingSequenceNumberStats s
     /\ _lastPacketReceivedTime (setWindowStarveThreshold v s) = _lastPacketReceivedTime s
     /\ _timeGapStatsForDesiredCalcOnTooManyStarves (setWindowStarveThreshold v s) = _timeGapStatsForDesiredCalcOnTooManyStarves s
     /\ _calculatedJitterBufferFramesUsingMaxGap (setWindowStarveThreshold v s) = _calculatedJitterBufferFramesUsingMaxGap s
     /\ _stdevStatsForDesiredCalcOnTooManyStarves (setWindowStarveThreshold v s) = _stdevStatsForDesiredCalcOnTooManyStarves s
     /\ _calculatedJitterBufferFramesUsingStDev (setWindowStarveThreshold v s) = _calculatedJitterBufferFramesUsingStDev s
     /\ _timeGapStatsForDesiredReduction (setWindowStarveThreshold v s) = _timeGapStatsForDesiredReduction s
     /\ _starveHistoryWindowSeconds (setWindowStarveThreshold v s) = _starveHistoryWindowSeconds s
     /\ _starveHistory (setWindowStarveThreshold v s) = _starveHistory s
     /\ _framesAvailableStat (setWindowStarveThreshold v s) = _framesAvailableStat s
     /\ _currentJitterBufferFrames (setWindowStarveThreshold v s) = _currentJitterBufferFrames s
     /\ _timeGapStatsForStatsPacket (setWindowStarveThreshold v s) = _timeGapStatsForStatsPacket s).
Proof.
  intros s v b.
  unfold setMaxFramesOverDesired, setUseStDevForJitterCalc, setWindowStarveThreshold.
  split; [ | split ]; repeat split.
Qed.

(** C7, as amended.  A call of an inline granular setter takes effect at once
    on what the getters return: after [setMaxFramesOverDesired v],
    [getMaxFramesOverDesired] returns [v]; after [setUseStDevForJitterCalc b],
    [getCalculatedJitterBufferFrames] returns the std-dev estimate when [b]
    is true and the max-gap estimate otherwise; every other getter returns
    what it returned before the call, and [setWindowStarveThreshold] changes
    no getter's result. *)
Theorem inline_setters_observed_at_once :
  forall (s : InboundAudioStream) (v : Z) (b : bool),
    observe (setMaxFramesOverDesired v s) =
      Observe (lastPopSucceeded s) (getLastPopOutput s)
        (getCalculatedJitterBufferFrames s)
        (getCalculatedJitterBufferFramesUsingStDev s)
        (getCalculatedJitterBufferFramesUsingMaxGap s) (getDesiredJitterBufferFrames s)
        v (getNumFrameSamples s) (getFrameCapacity s) (getFramesAvailable s)
        (getFramesAvailableAverage s) (isStarved s) (hasStarted s)
        (getConsecutiveNotMixedCount s) (getStarveCount s) (getSilentFramesDropped s)
        (getOverflowCount s) (getPacketsReceived s)
    /\ observe (setUseStDevForJitterCalc b s) =
      Observe (lastPopSucceeded s) (getLastPopOutput s)
        (if b then getCalculatedJitterBufferFramesUsingStDev s
         else getCalculatedJitterBufferFramesUsingMaxGap s)
        (getCalculatedJitterBufferFramesUsingStDev s)
        (getCalculatedJitterBufferFramesUsingMaxGap s) (getDesiredJitterBufferFrames s)
        (getMaxFramesOverDesired s) (getNumFrameSamples s) (getFrameCapacity s)
        (getFramesAvailable s) (getFramesAvailableAverage s) (isStarved s)
        (hasStarted s) (getConsecutiveNotMixedCount s) (getStarveCount s)
        (getSilentFramesDropped s) (getOverflowCount s) (getPacketsReceived s)
    /\ observe (setWindowStarveThreshold v s) = observe s.
Proof.
  intros s v b. repeat split.
Qed.

(** ** The ring buffer *)

Lemma ringWellFormed_create : forall n c,
  1 <= n -> 1 <= c -> ringWellFormed (AudioRingBuffer.create n c).
Proof.
  intros n c Hn Hc. unfold ringWellFormed, samplesAvailable, sampleCapacity. cbn. nia.
Qed.

Lemma ringWellFormed_writeSamples : forall n rb,
  ringWellFormed rb -> ringWellFormed (writeSamples n rb).
Proof.
  intros n rb (Hn & Hc & Ha). unfold writeSamples, samplesRemaining.
  destruct (0 <? _) eqn:E; [apply Z.ltb_lt in E | apply Z.ltb_ge in E];
    unfold ringWellFormed, samplesAvailable, sampleCapacity in *; cbn; nia.
Qed.

Lemma ringWellFormed_popSamples : forall n rb,
  ringWellFormed rb -> ringWellFormed (fst (AudioRingBuffer.popSamples n rb)).
Proof.
  intros n rb (Hn & Hc & Ha).
  unfold AudioRingBuffer.popSamples, ringWellFormed, samplesAvailable, sampleCapacity in *.
  cbn. lia.
Qed.

Lemma frames_fit_in_samples : forall a d k,
  1 <= d -> 0 <= a -> 0 <= k <= a / d -> 0 <= k * d <= a.
Proof.
  intros a d k Hd Ha Hk.
  assert (d * (a / d) <= a) by (apply Z.mul_div_le; lia). nia.
Qed.

Lemma ringWellFormed_popFrames : forall n rb,
  ringWellFormed rb -> ringWellFormed (fst (AudioRingBuffer.popFrames n rb)).
Proof.
  intros n rb (Hn & Hc & Ha).
  unfold AudioRingBuffer.popFrames, framesAvailable.
  set (k := Z.max 0 (Z.min n (samplesAvailable rb / numFrameSamples rb))).
  assert (Hk : 0 <= k <= samplesAvailable rb / numFrameSamples rb).
  { assert (0 <= samplesAvailable rb / numFrameSamples rb)
      by (apply Z.div_pos; lia). subst k. lia. }
  pose proof (frames_fit_in_samples _ _ _ Hn (proj1 Ha) Hk) as Hfit.
  unfold ringWellFormed, samplesAvailable, sampleCapacity in *. cbn. lia.
Qed.

Lemma ringWellFormed_clear : forall rb, ringWellFormed rb -> ringWellFormed (clear rb).
Proof.
  intros rb (Hn & Hc & Ha).
  unfold clear, ringWellFormed, samplesAvailable, sampleCapacity in *. cbn. nia.
Qed.

Lemma framesAvailable_bounds : forall rb,
  ringWellFormed rb -> 0 <= framesAvailable rb <= frameCapacity rb.
Proof.
  intros rb (Hn & Hc & Ha). unfold framesAvailable, sampleCapacity in *. split.
  - apply Z.div_pos; lia.
  - apply Z.div_le_upper_bound; lia.
Qed.

(** ** What the member functions keep *)

Lemma evolves_refl : forall s, evolves s s.
Proof. intros s. unfold evolves. tauto. Qed.

Lemma evolves_trans : forall s1 s2 s3, evolves s1 s2 -> evolves s2 s3 -> evolves s1 s3.
Proof.
  intros s1 s2 s3 (A1 & A2 & A3 & A4 & A5 & A6 & A7 & A8)
    (B1 & B2 & B3 & B4 & B5 & B6 & B7 & B8).
  rewrite A3 in B7. rewrite A5, A2 in B8.
  unfold evolves.
  split; [congruence | ]. split; [congruence | ]. split; [congruence | ].
  split; [congruence | ]. split; [congruence | ].
  split; [auto | ]. split; [auto | ].
  intros Hm Hd. exact (B8 Hm (A8 Hm Hd)).
Qed.

Lemma sameDepthMembers_evolves : forall s s', sameDepthMembers s s' -> evolves s s'.
Proof.
  intros s s' (R & D & St & M & De & F & P).
  unfold evolves, pinnedToStatic, depthsInClampInterval, inClampInterval,
    clampDesiredJitterBufferFramesValue, getNumFrameSamples, getFrameCapacity.
  rewrite R, D, St, M, De, F, P. tauto.
Qed.

Ltac same_depth :=
  apply sameDepthMembers_evolves; unfold sameDepthMembers; cbn; tauto.

Lemma clamp_inClampInterval : forall s x,
  _maxFramesOverDesired s <= getFrameCapacity s ->
  inClampInterval s (clampDesiredJitterBufferFramesValue s x).
Proof.
  intros s x H. unfold inClampInterval, clampDesiredJitterBufferFramesValue. lia.
Qed.

Lemma evolves_framesAvailableChanged : forall now s,
  evolves s (framesAvailableChanged now s).
Proof.
  intros now s. unfold framesAvailableChanged.
  destruct (_ <=? _); same_depth.
Qed.

Lemma evolves_set_desired : forall s x,
  (_dynamicJitterBuffers s = false -> x = _staticDesiredJitterBufferFrames s) ->
  evolves s (set_desiredJitterBufferFrames (clampDesiredJitterBufferFramesValue s x) s).
Proof.
  intros s x Hx.
  unfold evolves, pinnedToStatic, depthsInClampInterval, getNumFrameSamples, getFrameCapacity.
  cbn.
  split; [reflexivity | ]. split; [reflexivity | ]. split; [reflexivity | ].
  split; [reflexivity | ]. split; [reflexivity | ].
  split; [auto | ]. split.
  - intros Hd _. rewrite (Hx Hd). reflexivity.
  - intros Hm (_ & HF & HP). split; [ | split; assumption].
    apply (clamp_inClampInterval s x Hm).
Qed.

Lemma evolves_depthPolicy : forall shrink now s, evolves s (depthPolicy shrink now s).
Proof.
  intros shrink now s. unfold depthPolicy.
  destruct (_dynamicJitterBuffers s) eqn:D; cbn [negb].
  - apply evolves_set_desired. congruence.
  - apply evolves_set_desired. reflexivity.
Qed.

Lemma geometry_writeSamples : forall n rb,
  numFrameSamples (writeSamples n rb) = numFrameSamples rb
  /\ frameCapacity (writeSamples n rb) = frameCapacity rb.
Proof. intros n rb. unfold writeSamples. destruct (0 <? _); split; reflexivity. Qed.

Lemma evolves_set_ringBuffer : forall s rb,
  numFrameSamples rb = numFrameSamples (_ringBuffer s) ->
  frameCapacity rb = frameCapacity (_ringBuffer s) ->
  (ringWellFormed (_ringBuffer s) -> ringWellFormed rb) ->
  evolves s (set_ringBuffer rb s).
Proof.
  intros s rb Hn Hc Hw.
  unfold evolves, pinnedToStatic, depthsInClampInterval, inClampInterval,
    clampDesiredJitterBufferFramesValue, getNumFrameSamples, getFrameCapacity,
    AudioRingBuffer.getNumFrameSamples, AudioRingBuffer.getFrameCapacity.
  cbn. rewrite Hn, Hc. tauto.
Qed.

Lemma evolves_recordStarve : forall now s, evolves s (recordStarve now s).
Proof.
  intros now s. unfold recordStarve.
  match goal with |- context [if tooManyStarves now ?x then _ else _] => set (s2 := x) end.
  assert (H2 : evolves s s2) by (subst s2; same_depth).
  destruct (tooManyStarves now s2); [ | exact H2].
  eapply evolves_trans; [exact H2 | apply evolves_depthPolicy].
Qed.

Lemma evolves_afterPop : forall now starve s rb n,
  numFrameSamples rb = numFrameSamples (_ringBuffer s) ->
  frameCapacity rb = frameCapacity (_ringBuffer s) ->
  (ringWellFormed (_ringBuffer s) -> ringWellFormed rb) ->
  evolves s (fst (afterPop now starve s (rb, n))).
Proof.
  intros now starve s rb n Hn Hc Hw. unfold afterPop. cbn [fst].
  eapply evolves_trans; [ | apply evolves_framesAvailableChanged].
  destruct (0 <? n).
  - eapply evolves_trans; [apply (evolves_set_ringBuffer s rb Hn Hc Hw) | same_depth].
  - match goal with |- context [recordStarve now ?x] => set (s0 := x) end.
    assert (H0 : evolves s s0) by (subst s0; same_depth).
    destruct starve; [ | exact H0].
    eapply evolves_trans; [exact H0 | apply evolves_recordStarve].
Qed.

Lemma evolves_popFrames : forall maxFrames allOrNothing starve now s,
  evolves s (fst (popFrames maxFrames allOrNothing starve now s)).
Proof.
  intros maxFrames allOrNothing starve now s. unfold popFrames.
  match goal with |- context [AudioRingBuffer.popFrames ?r ?b] =>
    pose proof (ringWellFormed_popFrames r b) as Hw;
    destruct (AudioRingBuffer.popFrames r b) as [rb n] eqn:E end.
  apply evolves_afterPop; [ | | exact Hw];
    unfold AudioRingBuffer.popFrames in E; injection E as <- _; reflexivity.
Qed.

Lemma evolves_popSamples : forall maxSamples allOrNothing starve now s,
  evolves s (fst (popSamples maxSamples allOrNothing starve now s)).
Proof.
  intros maxSamples allOrNothing starve now s. unfold popSamples.
  match goal with |- context [AudioRingBuffer.popSamples ?r ?b] =>
    pose proof (ringWellFormed_popSamples r b) as Hw;
    destruct (AudioRingBuffer.popSamples r b) as [rb n] eqn:E end.
  apply evolves_afterPop; [ | | exact Hw];
    unfold AudioRingBuffer.popSamples in E; injection E as <- _; reflexivity.
Qed.

Lemma evolves_clearBuffer : forall s, evolves s (clearBuffer s).
Proof.
  intros s. unfold clearBuffer.
  apply evolves_set_ringBuffer; [reflexivity | reflexivity | apply ringWellFormed_clear].
Qed.

Lemma evolves_resetStats : forall s, evolves s (resetStats s).
Proof. intros s. unfold resetStats. same_depth. Qed.

Lemma evolves_reset : forall s, evolves s (reset s).
Proof.
  intros s. unfold reset.
  eapply evolves_trans; [apply evolves_clearBuffer | ].
  eapply evolves_trans; [apply evolves_resetStats | same_depth].
Qed.

Lemma evolves_writeSamplesForDroppedPackets : forall n s,
  evolves s (fst (writeSamplesForDroppedPackets n s)).
Proof.
  intros n s. unfold writeSamplesForDroppedPackets, writeDroppableSilentSamples, writeSilent.
  destruct (_ <=? _); cbn [fst]; [same_depth | ].
  apply evolves_set_ringBuffer;
    [apply geometry_writeSamples | apply geometry_writeSamples
    | apply ringWellFormed_writeSamples].
Qed.

Lemma evolves_parseAudioData : forall type payload n s,
  evolves s (fst (parseAudioData type payload n s)).
Proof.
  intros type payload n s. unfold parseAudioData. cbn [fst].
  apply evolves_set_ringBuffer;
    [apply geometry_writeSamples | apply geometry_writeSamples
    | apply ringWellFormed_writeSamples].
Qed.

Lemma evolves_packetReceivedUpdateTimingStats : forall now s,
  evolves s (packetReceivedUpdateTimingStats now s).
Proof.
  intros now s. unfold packetReceivedUpdateTimingStats.
  destruct (_ =? _); same_depth.
Qed.

Lemma evolves_dropOldFrames : forall s, evolves s (dropOldFrames s).
Proof.
  intros s. unfold dropOldFrames.
  destruct (_ <? _); [ | apply evolves_refl].
  match goal with |- context [AudioRingBuffer.popFrames ?r ?b] =>
    pose proof (ringWellFormed_popFrames r b) as Hw;
    destruct (AudioRingBuffer.popFrames r b) as [rb n] eqn:E end.
  apply evolves_trans with (set_ringBuffer rb s); [ | same_depth].
  apply evolves_set_ringBuffer; [ | | exact Hw];
    unfold AudioRingBuffer.popFrames in E; injection E as <- _; reflexivity.
Qed.

Lemma evolves_afterPacket : forall now s, evolves s (afterPacket now s).
Proof.
  intros now s. unfold afterPacket.
  eapply evolves_trans; [ | apply evolves_framesAvailableChanged].
  eapply evolves_trans; [apply evolves_dropOldFrames | ].
  destruct (_ && _); [same_depth | apply evolves_refl].
Qed.

Lemma evolves_parseData : forall packet now s, evolves s (fst (parseData packet now s)).
Proof.
  intros packet now s. unfold parseData.
  destruct (SequenceNumberStats.sequenceNumberReceived _ _) as [tracker status].
  match goal with |- context [parseStreamProperties ?a ?b] =>
    destruct (parseStreamProperties a b) as [err | [n bytes]] end;
  (assert (H1 : evolves s (set_incomingSequenceNumberStats tracker s)) by same_depth);
  destruct status; cbn [fst];
    try exact H1;
    try (eapply evolves_trans; [exact H1 | apply evolves_reset]);
    try (eapply evolves_trans; [exact H1 | apply evolves_afterPacket]).
  - destruct (parseAudioData _ _ _ _) as [s3 audioBytes] eqn:E. cbn [fst].
    eapply evolves_trans; [exact H1 | ].
    eapply evolves_trans;
      [ | apply evolves_afterPacket].
    eapply evolves_trans; [ | apply evolves_depthPolicy].
    eapply evolves_trans; [ | apply evolves_packetReceivedUpdateTimingStats].
    change s3 with (fst (s3, audioBytes)). rewrite <- E. apply evolves_parseAudioData.
  - destruct (parseAudioData _ _ _ _) as [s3 audioBytes] eqn:E. cbn [fst].
    eapply evolves_trans; [exact H1 | ].
    eapply evolves_trans; [apply evolves_writeSamplesForDroppedPackets | ].
    eapply evolves_trans;
      [ | apply evolves_afterPacket].
    eapply evolves_trans; [ | apply evolves_depthPolicy].
    eapply evolves_trans; [ | apply evolves_packetReceivedUpdateTimingStats].
    change s3 with (fst (s3, audioBytes)). rewrite <- E. apply evolves_parseAudioData.
Qed.

Lemma evolves_set_estimates : forall s f p,
  evolves s
    (set_calculatedJitterBufferFramesUsingMaxGap (clampDesiredJitterBufferFramesValue s f)
       (set_calculatedJitterBufferFramesUsingStDev
          (clampDesiredJitterBufferFramesValue s p) s)).
Proof.
  intros s f p.
  unfold evolves, pinnedToStatic, depthsInClampInterval, getNumFrameSamples, getFrameCapacity.
  cbn.
  split; [reflexivity | ]. split; [reflexivity | ]. split; [reflexivity | ].
  split; [reflexivity | ]. split; [reflexivity | ].
  split; [auto | ]. split; [auto | ].
  intros Hm (Hd & _ & _). split; [exact Hd | split].
  - apply (clamp_inClampInterval s f Hm).
  - apply (clamp_inClampInterval s p Hm).
Qed.

Lemma evolves_perSecondCallbackForUpdatingStats : forall now s,
  evolves s (perSecondCallbackForUpdatingStats now s).
Proof.
  intros now s. unfold perSecondCallbackForUpdatingStats.
  match goal with |- context [set_calculatedJitterBufferFramesUsingStDev _ ?x] =>
    set (s1 := x) end.
  assert (H1 : evolves s s1) by (subst s1; same_depth).
  eapply evolves_trans; [ | apply evolves_framesAvailableChanged].
  eapply evolves_trans; [ | apply evolves_depthPolicy].
  eapply evolves_trans; [exact H1 | apply evolves_set_estimates].
Qed.

Lemma evolves_call : forall now op s,
  keepsDepthSettings op = true -> evolves s (call now op s).
Proof.
  intros now op s Hop. destruct op; try discriminate Hop; cbn [call].
  - apply evolves_parseData.
  - apply evolves_popFrames.
  - apply evolves_popSamples.
  - unfold setToStarved. same_depth.
  - apply evolves_clearBuffer.
  - apply evolves_reset.
  - apply evolves_resetStats.
  - apply evolves_perSecondCallbackForUpdatingStats.
  - unfold setUseStDevForJitterCalc. same_depth.
  - unfold setWindowStarveThreshold. same_depth.
  - unfold setWindowSecondsForDesiredCalcOnTooManyStarves. same_depth.
  - unfold setWindowSecondsForDesiredReduction. same_depth.
Qed.

(** The setters leave the ring and the two estimates alone; desiredFrames is
    left as it was or set to the static setting, clamped. *)
Lemma setter_members : forall now op s,
  keepsDepthSettings op = false ->
  _ringBuffer (call now op s) = _ringBuffer s
  /\ (_desiredJitterBufferFrames (call now op s) = _desiredJitterBufferFrames s
      \/ _desiredJitterBufferFrames (call now op s) =
         clampDesiredJitterBufferFramesValue (call now op s)
           (_staticDesiredJitterBufferFrames (call now op s)))
  /\ _calculatedJitterBufferFramesUsingMaxGap (call now op s) =
     _calculatedJitterBufferFramesUsingMaxGap s
  /\ _calculatedJitterBufferFramesUsingStDev (call now op s) =
     _calculatedJitterBufferFramesUsingStDev s
  /\ (keepsMaxFramesOverDesired op = true ->
      _maxFramesOverDesired (call now op s) = _maxFramesOverDesired s).
Proof.
  intros now op s Hop. destruct op; try discriminate Hop; cbn [call].
  - unfold setSettings, setWindowSecondsForDesiredReduction,
      setWindowSecondsForDesiredCalcOnTooManyStarves, setWindowStarveThreshold,
      setUseStDevForJitterCalc, setStaticDesiredJitterBufferFrames,
      setDynamicJitterBuffers, setMaxFramesOverDesired.
    destruct (Settings._dynamicJitterBuffers settings); cbn;
      (split; [reflexivity | ]); (split; [auto | ]);
      (split; [reflexivity | ]); (split; [reflexivity | discriminate]).
  - unfold setMaxFramesOverDesired. cbn.
    split; [reflexivity | ]. split; [left; reflexivity | ].
    split; [reflexivity | ]. split; [reflexivity | discriminate].
  - unfold setDynamicJitterBuffers.
    destruct dynamicJitterBuffers; cbn;
      (split; [reflexivity | ]); (split; [auto | ]);
      (split; [reflexivity | ]); (split; reflexivity).
  - unfold setStaticDesiredJitterBufferFrames. cbn [_dynamicJitterBuffers copy].
    cbn. destruct (_dynamicJitterBuffers s); cbn;
      (split; [reflexivity | ]); (split; [auto | ]);
      (split; [reflexivity | ]); (split; reflexivity).
Qed.




Lemma ringWellFormed_call : forall now op s,
  ringWellFormed (_ringBuffer s) -> ringWellFormed (_ringBuffer (call now op s)).
Proof.
  intros now op s H. destruct (keepsDepthSettings op) eqn:Hop.
  - apply (evolves_call now op s Hop). exact H.
  - destruct (setter_members now op s Hop) as (-> & _). exact H.
Qed.

Lemma ringWellFormed_run : forall calls s,
  ringWellFormed (_ringBuffer s) -> ringWellFormed (_ringBuffer (run calls s)).
Proof.
  induction calls as [ | [now op] rest IH]; intros s H; cbn [run].
  - exact H.
  - apply IH. apply ringWellFormed_call. exact H.
Qed.

Lemma create_inversion : forall n c settings s0,
  create n c settings = Some s0 ->
  1 <= n /\ 1 <= c
  /\ _ringBuffer s0 = AudioRingBuffer.create n c
  /\ _maxFramesOverDesired s0 = Settings._maxFramesOverDesired settings
  /\ _desiredJitterBufferFrames s0 =
     clampDesiredJitterBufferFramesValue s0 (Settings._staticDesiredJitterBufferFrames settings)
  /\ _calculatedJitterBufferFramesUsingMaxGap s0 = 0
  /\ _calculatedJitterBufferFramesUsingStDev s0 = 0.
Proof.
  intros n c settings s0. unfold create.
  destruct (c <? 1) eqn:Ec; [discriminate | ].
  destruct (n <? 1) eqn:En; [discriminate | ].
  cbn [orb]. intros H. injection H as <-.
  apply Z.ltb_ge in Ec, En. cbn. repeat split; lia.
Qed.

Lemma ringBuffer_framesAvailableChanged : forall now s,
  _ringBuffer (framesAvailableChanged now s) = _ringBuffer s.
Proof.
  intros now s. unfold framesAvailableChanged. destruct (_ <=? _); reflexivity.
Qed.

(** C4. From the creation of a stream on, whatever the calls made
    ([parseData], [popFrames] and every other member function, at any times
    and with any arguments), framesAvailable stays within
    [0, frameCapacity].  In any state so reached, a write of more samples than
    the ring has room for advances the read cursor by the samples that did not
    fit and adds one to the overflow count, and the ring then holds exactly
    frameCapacity frames; and a [popFrames] that pops N > 0 frames moves the
    read cursor by exactly N times frameSampleCount. *)
Theorem framesAvailable_stays_within_capacity :
  forall (numFrameSamples numFramesCapacity : Z) (settings : Settings.Settings)
         (s0 : InboundAudioStream) (calls : list (Z * Operation)),
    create numFrameSamples numFramesCapacity settings = Some s0 ->
    let s := run calls s0 in
    0 <= getFramesAvailable s <= getFrameCapacity s
    /\ (forall (type : PacketType) (payload : QByteArray) (n : Z),
          samplesRemaining (_ringBuffer s) < n ->
          let s' := fst (parseAudioData type payload n s) in
          readCursor (_ringBuffer s') =
            readCursor (_ringBuffer s) + (n - samplesRemaining (_ringBuffer s))
          /\ getOverflowCount s' = getOverflowCount s + 1
          /\ getFramesAvailable s' = getFrameCapacity s')
    /\ (forall (maxFrames : Z) (allOrNothing starve : bool) (now : Z),
          let popped := popFrames maxFrames allOrNothing starve now s in
          0 < snd popped ->
          readCursor (_ringBuffer (fst popped)) =
            readCursor (_ringBuffer s) + snd popped * getNumFrameSamples s).
Proof.
  intros n c settings s0 calls Hcreate s.
  destruct (create_inversion _ _ _ _ Hcreate) as (Hn & Hc & Hring & _).
  assert (Hw : ringWellFormed (_ringBuffer s)).
  { subst s. apply ringWellFormed_run. rewrite Hring.
    apply ringWellFormed_create; assumption. }
  split; [ | split].
  - apply framesAvailable_bounds. exact Hw.
  - intros type payload k Hk s'. subst s'.
    destruct Hw as (Hfs & Hfc & Ha).
    unfold parseAudioData, getOverflowCount, getFramesAvailable, getFrameCapacity,
      AudioRingBuffer.getOverflowCount, AudioRingBuffer.getFrameCapacity.
    cbn [fst]. cbn -[writeSamples].
    unfold writeSamples.
    assert (Hpos : 0 < k) by (unfold samplesRemaining in Hk; lia).
    rewrite (Z.max_r 0 k) by lia.
    destruct (0 <? k - samplesRemaining (_ringBuffer s)) eqn:E;
      [ | apply Z.ltb_ge in E; lia].
    cbn. split; [reflexivity | split; [reflexivity | ]].
    unfold framesAvailable, samplesRemaining, sampleCapacity. cbn.
    match goal with |- ?x / ?d = ?q =>
      replace x with (q * d) by (unfold samplesAvailable; cbn; lia) end.
    apply Z.div_mul. lia.
  - intros maxFrames allOrNothing starve now popped Hpop. subst popped.
    unfold popFrames, afterPop, AudioRingBuffer.popFrames in *. cbn [fst snd] in *.
    rewrite ringBuffer_framesAvailableChanged.
    destruct (0 <? _) eqn:E; [ | apply Z.ltb_ge in E; lia].
    reflexivity.
Qed.

End Properties.

(** A concrete run: a stream of 100 frames of 240 samples with the default
    settings receives one packet and is popped once. *)
Lemma framesAvailable_stays_within_capacity_witness :
  exists s0 : Reference.Stream,
    create 240 100 Settings.Settings0 = Some s0
    /\ 0 <= getFramesAvailable
             (run (SK := Reference.rawAudio)
                [(10000, ParseData (Reference.audioPacket 0 1));
                 (20000, PopFrames 1 false true)] s0) <= 100.
Proof.
  eexists. split; [reflexivity | ].
  apply (framesAvailable_stays_within_capacity (TS := Reference.timingStats)
           (SK := Reference.rawAudio) 240 100 Settings.Settings0 _
           [(10000, ParseData (Reference.audioPacket 0 1));
            (20000, PopFrames 1 false true)] eq_refl).
Defined.

(** ** The depth invariants *)

Section DepthProperties.

Context {TS : TimingStats} {SK : StreamKind}.







Lemma depthsInClampInterval_perSecondCallbackForUpdatingStats : forall now s,
  _maxFramesOverDesired s <= getFrameCapacity s ->
  depthsInClampInterval (perSecondCallbackForUpdatingStats now s).
Proof.
  intros now s Hm. unfold perSecondCallbackForUpdatingStats.
  match goal with |- context [depthPolicy true now ?x] => set (s2 := x) end.
  assert (Hm2 : _maxFramesOverDesired s2 <= getFrameCapacity s2) by (subst s2; cbn; exact Hm).
  assert (H2 : inClampInterval s2 (_calculatedJitterBufferFramesUsingMaxGap s2)
               /\ inClampInterval s2 (_calculatedJitterBufferFramesUsingStDev s2)).
  { subst s2. unfold inClampInterval, clampDesiredJitterBufferFramesValue, getFrameCapacity in *.
    cbn in *. lia. }
  apply (evolves_framesAvailableChanged now (depthPolicy true now s2)).
  - pose proof (evolves_depthPolicy true now s2) as (_ & -> & _ & _ & -> & _). exact Hm2.
  - unfold depthPolicy.
    destruct (negb (_dynamicJitterBuffers s2));
      unfold depthsInClampInterval, inClampInterval, clampDesiredJitterBufferFramesValue,
        getFrameCapacity in *; cbn in *; lia.
Qed.

Lemma depthsInClampInterval_call : forall now op s,
  keepsMaxFramesOverDesired op = true ->
  _maxFramesOverDesired s <= getFrameCapacity s ->
  depthsInClampInterval s ->
  _maxFramesOverDesired (call now op s) <= getFrameCapacity (call now op s)
  /\ depthsInClampInterval (call now op s).
Proof.
  intros now op s Hop Hm Hd. destruct (keepsDepthSettings op) eqn:Hk.
  - destruct (evolves_call now op s Hk) as (_ & Ec & _ & _ & Em & _ & _ & Er).
    split; [rewrite Ec, Em; exact Hm | apply Er; assumption].
  - destruct (setter_members now op s Hk) as (Er & Ed & Ef & Ep & Em).
    specialize (Em Hop).
    assert (Hm' : _maxFramesOverDesired (call now op s) <= getFrameCapacity (call now op s)).
    { unfold getFrameCapacity. rewrite Er, Em. exact Hm. }
    split; [exact Hm' | ].
    destruct Hd as (Hdes & HF & HP).
    unfold depthsInClampInterval. split; [ | split].
    + destruct Ed as [Ed | Ed]; rewrite Ed.
      * unfold inClampInterval, getFrameCapacity in *. rewrite Er, Em. exact Hdes.
      * apply clamp_inClampInterval. exact Hm'.
    + unfold inClampInterval, getFrameCapacity in *. rewrite Er, Ef, Em. exact HF.
    + unfold inClampInterval, getFrameCapacity in *. rewrite Er, Ep, Em. exact HP.
Qed.

Lemma depthsInClampInterval_run : forall calls s,
  forallb (fun c => keepsMaxFramesOverDesired (snd c)) calls = true ->
  _maxFramesOverDesired s <= getFrameCapacity s ->
  depthsInClampInterval s ->
  depthsInClampInterval (run calls s).
Proof.
  induction calls as [ | [now op] rest IH]; intros s H Hm Hd; cbn [run].
  - exact Hd.
  - cbn [forallb snd] in H. apply andb_true_iff in H. destruct H as [Hop Hrest].
    destruct (depthsInClampInterval_call now op s Hop Hm Hd) as [Hm' Hd'].
    apply IH; assumption.
Qed.

(** C3, as amended.  Whenever maxFramesOverDesired is at most frameCapacity,
    so that the interval [0, frameCapacity - maxFramesOverDesired] is not
    empty: the per-second tick leaves desiredFrames and the two estimates it
    computes (max-gap and std-dev) in that interval, whatever the state it
    starts from; and in every state reached from the creation of a stream by
    calls other than [setMaxFramesOverDesired] and [setSettings], desiredFrames
    and the two estimates lie in that interval. *)
Theorem desiredFrames_within_clamp_interval :
  (forall (s : InboundAudioStream) (now : Z),
     getMaxFramesOverDesired s <= getFrameCapacity s ->
     let s' := perSecondCallbackForUpdatingStats now s in
     0 <= getDesiredJitterBufferFrames s' <= getFrameCapacity s' - getMaxFramesOverDesired s'
     /\ 0 <= getCalculatedJitterBufferFramesUsingMaxGap s'
          <= getFrameCapacity s' - getMaxFramesOverDesired s'
     /\ 0 <= getCalculatedJitterBufferFramesUsingStDev s'
          <= getFrameCapacity s' - getMaxFramesOverDesired s')
  /\
  (forall (numFrameSamples numFramesCapacity : Z) (settings : Settings.Settings)
          (s0 : InboundAudioStream) (calls : list (Z * Operation)),
     create numFrameSamples numFramesCapacity settings = Some s0 ->
     Settings._maxFramesOverDesired settings <= numFramesCapacity ->
     forallb (fun c => keepsMaxFramesOverDesired (snd c)) calls = true ->
     let s := run calls s0 in
     0 <= getDesiredJitterBufferFrames s <= getFrameCapacity s - getMaxFramesOverDesired s
     /\ 0 <= getCalculatedJitterBufferFramesUsingMaxGap s
          <= getFrameCapacity s - getMaxFramesOverDesired s
     /\ 0 <= getCalculatedJitterBufferFramesUsingStDev s
          <= getFrameCapacity s - getMaxFramesOverDesired s).
Proof.
  split.
  - intros s now Hm s'.
    exact (depthsInClampInterval_perSecondCallbackForUpdatingStats now s Hm).
  - intros n c settings s0 calls Hcreate Hm Hcalls s.
    destruct (create_inversion _ _ _ _ Hcreate) as (Hn & Hc & Hring & Hmax & Hdes & HF & HP).
    assert (Hm0 : _maxFramesOverDesired s0 <= getFrameCapacity s0).
    { unfold getFrameCapacity. rewrite Hring, Hmax. cbn. exact Hm. }
    apply (depthsInClampInterval_run calls s0 Hcalls Hm0).
    unfold depthsInClampInterval. rewrite Hdes, HF, HP.
    split; [apply clamp_inClampInterval; exact Hm0 | ].
    unfold inClampInterval. lia.
Qed.

End DepthProperties.

(** ** Concrete streams *)



(** C3: a stream with the default settings is ticked, receives a packet and
    is popped; desiredFrames lies in [0, 100 - 10]. *)
Lemma desiredFrames_within_clamp_interval_witness :
  exists s0 : Reference.Stream,
    create 240 100 Settings.Settings0 = Some s0
    /\ 0 <= getDesiredJitterBufferFrames
              (run (SK := Reference.rawAudio)
                 [(1000000, PerSecondCallbackForUpdatingStats);
                  (1010000, ParseData (Reference.audioPacket 0 1));
                  (1020000, PopFrames 1 false true)] s0) <= 90.
Proof.
  eexists. split; [reflexivity | ].
  apply (proj2 (desiredFrames_within_clamp_interval (TS := Reference.timingStats)
                  (SK := Reference.rawAudio))
           240 100 Settings.Settings0 _
           [(1000000, PerSecondCallbackForUpdatingStats);
            (1010000, ParseData (Reference.audioPacket 0 1));
            (1020000, PopFrames 1 false true)] eq_refl).
  - vm_compute. discriminate.
  - reflexivity.
Defined.

(** C3 as stated fails, in two ways.  With maxFramesOverDesired = 200 on a
    ring of 100 frames the interval [0, frameCapacity - maxFramesOverDesired]
    is empty, so desiredFrames cannot lie in it.  And [setMaxFramesOverDesired]
    does not clamp again: a static stream ticked to desiredFrames = 90 keeps
    90 after [setMaxFramesOverDesired 50], above 100 - 50. *)
Lemma desiredFrames_outside_interval_counterexample :
  (exists s0 : Reference.Stream,
     create 240 100 (Settings.Settings7 200 true 1 false 3 50 10) = Some s0
     /\ getFrameCapacity s0 - getMaxFramesOverDesired s0 = -100
     /\ ~ (0 <= getDesiredJitterBufferFrames s0
             <= getFrameCapacity s0 - getMaxFramesOverDesired s0))
  /\
  (exists s0 : Reference.Stream,
     create 240 100 (Settings.Settings7 10 false 95 false 3 50 10) = Some s0
     /\ let s := run (SK := Reference.rawAudio)
                   [(1000000, PerSecondCallbackForUpdatingStats);
                    (1500000, SetMaxFramesOverDesired 50)] s0 in
        getDesiredJitterBufferFrames s = 90
        /\ getFrameCapacity s - getMaxFramesOverDesired s = 50
        /\ ~ (0 <= getDesiredJitterBufferFrames s
                <= getFrameCapacity s - getMaxFramesOverDesired s)).
Proof.
  split.
  - eexists. split; [reflexivity | ]. split; [reflexivity | ].
    intros [H0 H1]. vm_compute in H0. apply H0. reflexivity.
  - eexists. split; [reflexivity | ]. cbv zeta.
    split; [reflexivity | ]. split; [reflexivity | ].
    intros [H0 H1]. vm_compute in H1. apply H1. reflexivity.
Defined.

(** C7 as stated fails.  On a stream that holds the default settings,
    [getMaxFramesOverDesired] returns 10 before and 5 right after
    [setMaxFramesOverDesired 5], with no tick and no other call in between.
    On a stream whose max-gap estimate is 2 and whose std-dev estimate is 5,
    [getCalculatedJitterBufferFrames] returns 2 before and 5 right after
    [setUseStDevForJitterCalc true]. *)
Lemma setter_observed_before_tick_counterexample :
  (getMaxFramesOverDesired Reference.idleStream = 10
   /\ getMaxFramesOverDesired (setMaxFramesOverDesired 5 Reference.idleStream) = 5
   /\ observe (setMaxFramesOverDesired 5 Reference.idleStream)
      <> observe Reference.idleStream)
  /\
  (let s := set_calculatedJitterBufferFramesUsingMaxGap 2
              (set_calculatedJitterBufferFramesUsingStDev 5 Reference.idleStream) in
   getCalculatedJitterBufferFrames s = 2
   /\ getCalculatedJitterBufferFrames (setUseStDevForJitterCalc true s) = 5
   /\ observe (setUseStDevForJitterCalc true s) <> observe s).
Proof.
  split.
  - split; [reflexivity | ]. split; [reflexivity | ].
    intros H. apply (f_equal obs_maxFramesOverDesired) in H. vm_compute in H.
    discriminate H.
  - cbv zeta. split; [reflexivity | ]. split; [reflexivity | ].
    intros H. apply (f_equal obs_calculatedJitterBufferFrames) in H. vm_compute in H.
    discriminate H.
Qed.

(** ** The counters *)

Section CounterProperties.

Context {TS : TimingStats} {SK : StreamKind}.

Lemma countersGrow_refl : forall s, countersGrow s s.
Proof. intros s. unfold countersGrow. lia. Qed.

Lemma countersGrow_trans : forall s1 s2 s3,
  countersGrow s1 s2 -> countersGrow s2 s3 -> countersGrow s1 s3.
Proof. unfold countersGrow. intros s1 s2 s3 H1 H2. lia. Qed.

Ltac counters :=
  unfold countersGrow, getPacketsReceived, getStarveCount, getOverflowCount,
    getSilentFramesDropped, AudioRingBuffer.getOverflowCount,
    SequenceNumberStats.getReceived;
  cbn; lia.

Lemma countersGrow_framesAvailableChanged : forall now s,
  countersGrow s (framesAvailableChanged now s).
Proof. intros now s. unfold framesAvailableChanged. destruct (_ <=? _); counters. Qed.

Lemma countersGrow_depthPolicy : forall shrink now s,
  countersGrow s (depthPolicy shrink now s).
Proof. intros shrink now s. unfold depthPolicy. destruct (negb _); counters. Qed.

Lemma countersGrow_recordStarve : forall now s, countersGrow s (recordStarve now s).
Proof.
  intros now s. unfold recordStarve.
  match goal with |- context [if tooManyStarves now ?x then _ else _] => set (s2 := x) end.
  assert (H2 : countersGrow s s2) by (subst s2; counters).
  destruct (tooManyStarves now s2); [ | exact H2].
  eapply countersGrow_trans; [exact H2 | apply countersGrow_depthPolicy].
Qed.

Lemma countersGrow_afterPop : forall now starve s rb n,
  overflowCount rb = overflowCount (_ringBuffer s) ->
  countersGrow s (fst (afterPop now starve s (rb, n))).
Proof.
  intros now starve s rb n Ho. unfold afterPop. cbn [fst].
  eapply countersGrow_trans; [ | apply countersGrow_framesAvailableChanged].
  destruct (0 <? n).
  - unfold countersGrow, getPacketsReceived, getStarveCount, getOverflowCount,
      getSilentFramesDropped, AudioRingBuffer.getOverflowCount. cbn. lia.
  - match goal with |- context [recordStarve now ?x] => set (s0 := x) end.
    assert (H0 : countersGrow s s0) by (subst s0; counters).
    destruct starve; [ | exact H0].
    eapply countersGrow_trans; [exact H0 | apply countersGrow_recordStarve].
Qed.

Lemma countersGrow_popFrames : forall maxFrames allOrNothing starve now s,
  countersGrow s (fst (popFrames maxFrames allOrNothing starve now s)).
Proof.
  intros. unfold popFrames, AudioRingBuffer.popFrames.
  apply countersGrow_afterPop. reflexivity.
Qed.

Lemma countersGrow_popSamples : forall maxSamples allOrNothing starve now s,
  countersGrow s (fst (popSamples maxSamples allOrNothing starve now s)).
Proof.
  intros. unfold popSamples, AudioRingBuffer.popSamples.
  apply countersGrow_afterPop. reflexivity.
Qed.

Lemma overflowCount_writeSamples : forall n rb,
  overflowCount rb <= overflowCount (writeSamples n rb).
Proof. intros n rb. unfold writeSamples. destruct (0 <? _); cbn; lia. Qed.

Lemma countersGrow_writeSamplesForDroppedPackets : forall n s,
  countersGrow s (fst (writeSamplesForDroppedPackets n s)).
Proof.
  intros n s. unfold writeSamplesForDroppedPackets, writeDroppableSilentSamples, writeSilent.
  destruct (_ <=? _); cbn [fst]; [counters | ].
  pose proof (overflowCount_writeSamples (Z.max 0 n) (_ringBuffer s)).
  unfold countersGrow, getPacketsReceived, getStarveCount, getOverflowCount,
    getSilentFramesDropped, AudioRingBuffer.getOverflowCount.
  cbn -[writeSamples]. lia.
Qed.

Lemma countersGrow_parseAudioData : forall type payload n s,
  countersGrow s (fst (parseAudioData type payload n s)).
Proof.
  intros type payload n s. unfold parseAudioData. cbn [fst].
  pose proof (overflowCount_writeSamples n (_ringBuffer s)).
  unfold countersGrow, getPacketsReceived, getStarveCount, getOverflowCount,
    getSilentFramesDropped, AudioRingBuffer.getOverflowCount.
  cbn -[writeSamples]. lia.
Qed.

Lemma countersGrow_packetReceivedUpdateTimingStats : forall now s,
  countersGrow s (packetReceivedUpdateTimingStats now s).
Proof.
  intros now s. unfold packetReceivedUpdateTimingStats. destruct (_ =? _); counters.
Qed.

Lemma countersGrow_dropOldFrames : forall s, countersGrow s (dropOldFrames s).
Proof.
  intros s. unfold dropOldFrames, AudioRingBuffer.popFrames.
  destruct (_ <? _); [ | apply countersGrow_refl]. counters.
Qed.

Lemma countersGrow_afterPacket : forall now s, countersGrow s (afterPacket now s).
Proof.
  intros now s. unfold afterPacket.
  eapply countersGrow_trans; [ | apply countersGrow_framesAvailableChanged].
  eapply countersGrow_trans; [apply countersGrow_dropOldFrames | ].
  destruct (_ && _); [counters | apply countersGrow_refl].
Qed.

Lemma received_sequenceNumberReceived : forall n st,
  SequenceNumberStats.received (fst (SequenceNumberStats.sequenceNumberReceived n st)) =
  SequenceNumberStats.received st + 1.
Proof.
  intros n st. unfold SequenceNumberStats.sequenceNumberReceived.
  destruct (SequenceNumberStats.lastSeen st); [ | reflexivity].
  repeat match goal with |- context [if ?b then _ else _] => destruct b end; reflexivity.
Qed.

Lemma countersGrow_parseData : forall packet now s,
  resetsStats (ParseData packet) s = false ->
  countersGrow s (fst (parseData packet now s)).
Proof.
  intros packet now s Hr. unfold parseData. cbn [resetsStats] in Hr.
  pose proof (received_sequenceNumberReceived (sequenceNumber packet)
                (_incomingSequenceNumberStats s)) as Hrec.
  destruct (SequenceNumberStats.sequenceNumberReceived _ _) as [tracker status].
  cbn [fst snd] in Hrec, Hr.
  assert (H1 : countersGrow s (set_incomingSequenceNumberStats tracker s)).
  { unfold countersGrow, getPacketsReceived, getStarveCount, getOverflowCount,
      getSilentFramesDropped, SequenceNumberStats.getReceived. cbn. lia. }
  match goal with |- context [parseStreamProperties ?a ?b] =>
    destruct (parseStreamProperties a b) as [err | [n bytes]] end;
  destruct status; try discriminate Hr; cbn [fst];
    try exact H1;
    try (eapply countersGrow_trans; [exact H1 | apply countersGrow_afterPacket]).
  - destruct (parseAudioData _ _ _ _) as [s3 audioBytes] eqn:E. cbn [fst].
    eapply countersGrow_trans; [exact H1 | ].
    eapply countersGrow_trans; [ | apply countersGrow_afterPacket].
    eapply countersGrow_trans; [ | apply countersGrow_depthPolicy].
    eapply countersGrow_trans; [ | apply countersGrow_packetReceivedUpdateTimingStats].
    change s3 with (fst (s3, audioBytes)). rewrite <- E. apply countersGrow_parseAudioData.
  - destruct (parseAudioData _ _ _ _) as [s3 audioBytes] eqn:E. cbn [fst].
    eapply countersGrow_trans; [exact H1 | ].
    eapply countersGrow_trans; [apply countersGrow_writeSamplesForDroppedPackets | ].
    eapply countersGrow_trans; [ | apply countersGrow_afterPacket].
    eapply countersGrow_trans; [ | apply countersGrow_depthPolicy].
    eapply countersGrow_trans; [ | apply countersGrow_packetReceivedUpdateTimingStats].
    change s3 with (fst (s3, audioBytes)). rewrite <- E. apply countersGrow_parseAudioData.
Qed.

Lemma countersGrow_perSecondCallbackForUpdatingStats : forall now s,
  countersGrow s (perSecondCallbackForUpdatingStats now s).
Proof.
  intros now s. unfold perSecondCallbackForUpdatingStats.
  eapply countersGrow_trans; [ | apply countersGrow_framesAvailableChanged].
  eapply countersGrow_trans; [ | apply countersGrow_depthPolicy].
  counters.
Qed.

(** C8, as amended.  Across every call of a member function other than
    [reset()] and [resetStats()], and other than a [parseData] that ends in
    [reset()] because the packet's sequence number is unreasonable, each of the
    counters packetsReceived, starveCount, overflowCount, silentFramesDropped
    and oldFramesDropped is at least what it was before the call. *)
Theorem counters_never_decrease_without_reset :
  forall (now : Z) (op : Operation) (s : InboundAudioStream),
    resetsStats op s = false ->
    getPacketsReceived s <= getPacketsReceived (call now op s)
    /\ getStarveCount s <= getStarveCount (call now op s)
    /\ getOverflowCount s <= getOverflowCount (call now op s)
    /\ getSilentFramesDropped s <= getSilentFramesDropped (call now op s)
    /\ _oldFramesDropped s <= _oldFramesDropped (call now op s).
Proof.
  intros now op s Hr. change (countersGrow s (call now op s)).
  destruct op; try discriminate Hr; cbn [call].
  - apply countersGrow_parseData. exact Hr.
  - apply countersGrow_popFrames.
  - apply countersGrow_popSamples.
  - unfold setToStarved. counters.
  - unfold clearBuffer. counters.
  - apply countersGrow_perSecondCallbackForUpdatingStats.
  - unfold setSettings, setWindowSecondsForDesiredReduction,
      setWindowSecondsForDesiredCalcOnTooManyStarves, setWindowStarveThreshold,
      setUseStDevForJitterCalc, setStaticDesiredJitterBufferFrames,
      setDynamicJitterBuffers, setMaxFramesOverDesired.
    destruct (Settings._dynamicJitterBuffers settings); cbn; counters.
  - unfold setMaxFramesOverDesired. counters.
  - unfold setDynamicJitterBuffers. destruct dynamicJitterBuffers; cbn; counters.
  - unfold setStaticDesiredJitterBufferFrames. cbn.
    destruct (_dynamicJitterBuffers s); cbn; counters.
  - unfold setUseStDevForJitterCalc. counters.
  - unfold setWindowStarveThreshold. counters.
  - unfold setWindowSecondsForDesiredCalcOnTooManyStarves. counters.
  - unfold setWindowSecondsForDesiredReduction. counters.
Qed.

End CounterProperties.

(** C8: a pop on an empty stream starves; the starve count goes from 0 to 1. *)
Lemma counters_never_decrease_without_reset_witness :
  exists s0 : Reference.Stream,
    create 240 100 Settings.Settings0 = Some s0
    /\ getStarveCount s0 = 0
    /\ getStarveCount (call (SK := Reference.rawAudio) 1000 (PopFrames 1 false true) s0) = 1
    /\ getStarveCount s0
       <= getStarveCount (call (SK := Reference.rawAudio) 1000 (PopFrames 1 false true) s0).
Proof.
  eexists. split; [reflexivity | ]. split; [reflexivity | ]. split; [reflexivity | ].
  apply (counters_never_decrease_without_reset (TS := Reference.timingStats)
           (SK := Reference.rawAudio) 1000 (PopFrames 1 false true) _ eq_refl).
Defined.

(** C8 as stated fails: after one starve the starve count is 1, and
    [resetStats()] sets it back to 0; so does [parseData] of a packet whose
    sequence number jumps from 0 to 50000, which ends in [reset()]. *)
Lemma resetStats_lowers_starveCount_counterexample :
  exists s0 : Reference.Stream,
    create 240 100 Settings.Settings0 = Some s0
    /\ let s1 := run (SK := Reference.rawAudio)
                   [(1000, PopFrames 1 false true);
                    (2000, ParseData (Reference.audioPacket 0 1))] s0 in
       getStarveCount s1 = 1
       /\ getStarveCount (call (SK := Reference.rawAudio) 3000 ResetStats s1) = 0
       /\ getStarveCount
            (call (SK := Reference.rawAudio) 3000
               (ParseData (Reference.audioPacket 50000 1)) s1) = 0.
Proof.
  eexists. split; [reflexivity | ]. vm_compute. repeat split.
Qed.

(** ** Scenarios of the specification (section 8), run on the model *)

(** Scenario 1: ten packets in order, then ten pops of one frame: nothing is
    left, nothing starved, nothing dropped. *)
Example scenario_lossless_in_order :
  option_map
    (fun s0 : Reference.Stream =>
       let s := run (SK := Reference.rawAudio)
                  (Reference.feed [0; 1; 2; 3; 4; 5; 6; 7; 8; 9]
                   ++ repeat (200000, PopFrames 1 false true) 10) s0 in
       (getFramesAvailable s, getStarveCount s, getSilentFramesDropped s))
    (create 240 INBOUND_RING_BUFFER_FRAME_CAPACITY Reference.staticSettings)
  = Some (0, 0, 0).
Proof. vm_compute. reflexivity. Qed.

(** Scenario 3: the packet repeated is counted as a duplicate and adds no
    frame. *)
Example scenario_duplicate :
  option_map
    (fun s0 : Reference.Stream =>
       let s := run (SK := Reference.rawAudio) (Reference.feed [0; 1; 1; 2]) s0 in
       (SequenceNumberStats.duplicate (_incomingSequenceNumberStats s),
        getFramesAvailable s))
    (create 240 INBOUND_RING_BUFFER_FRAME_CAPACITY Reference.staticSettings)
  = Some (1, 3).
Proof. vm_compute. reflexivity. Qed.

(** Scenario 4: the packet that arrives after its successor is counted
    late. *)
Example scenario_reorder :
  option_map
    (fun s0 : Reference.Stream =>
       let s := run (SK := Reference.rawAudio) (Reference.feed [0; 2; 1; 3]) s0 in
       SequenceNumberStats.late (_incomingSequenceNumberStats s))
    (create 240 INBOUND_RING_BUFFER_FRAME_CAPACITY Reference.staticSettings)
  = Some 1.
Proof. vm_compute. reflexivity. Qed.

(** Scenario 5: an unreasonable jump resets the stream, no frame is left, and
    the next packet is on time from the new baseline. *)
Example scenario_unreasonable_jump :
  option_map
    (fun s0 : Reference.Stream =>
       let s := run (SK := Reference.rawAudio) (Reference.feed [0; 1; 50000]) s0 in
       (getFramesAvailable s,
        SequenceNumberStats.unreasonable (_incomingSequenceNumberStats s),
        snd (SequenceNumberStats.sequenceNumberReceived 50001
               (_incomingSequenceNumberStats s))))
    (create 240 INBOUND_RING_BUFFER_FRAME_CAPACITY Reference.staticSettings)
  = Some (0, 1, SequenceNumberStats.OnTime).
Proof. vm_compute. reflexivity. Qed.

(** Scenario 6: dynamic mode, max-gap method, starve threshold 3.  Two packets
    50 ms apart give F = 5 at the tick; the third starve within the window
    raises desiredFrames to F + 1 = 6. *)
Example scenario_starve_driven_growth :
  option_map
    (fun s0 : Reference.Stream =>
       let s := run (SK := Reference.rawAudio)
                  [(10000, ParseData (Reference.audioPacket 0 1));
                   (60000, ParseData (Reference.audioPacket 1 1));
                   (1000000, PerSecondCallbackForUpdatingStats);
                   (1010000, PopFrames 2 true true);
                   (1020000, PopFrames 1 false true);
                   (1030000, PopFrames 1 false true);
                   (1040000, PopFrames 1 false true)] s0 in
       (getCalculatedJitterBufferFramesUsingMaxGap s, getStarveCount s,
        getDesiredJitterBufferFrames s))
    (create 240 INBOUND_RING_BUFFER_FRAME_CAPACITY Settings.Settings0)
  = Some (5, 3, 6).
Proof. vm_compute. reflexivity. Qed.

(** A stream created with the default settings is [Reference.idleStream]. *)
Example create_with_defaults :
  create 240 INBOUND_RING_BUFFER_FRAME_CAPACITY Settings.Settings0
  = Some Reference.idleStream.
Proof. reflexivity. Qed.

(** ** More of InboundAudioStream.h *)

(** X1. The seven-argument constructor of [Settings] builds exactly the
    settings whose two window members are equal: a [Settings] is the result
    of some call of it if and only if its reduction window equals its
    window for the calculation on too many starves.  So no call of it builds
    the default settings, whose windows differ. *)
Theorem Settings7_builds_equal_windows_only :
  (forall s : Settings.Settings,
     (exists m d st u th w6 w7, Settings.Settings7 m d st u th w6 w7 = s)
     <-> Settings._windowSecondsForDesiredReduction s
         = Settings._windowSecondsForDesiredCalcOnTooManyStarves s)
  /\ (forall m d st u th w6 w7,
        Settings.Settings7 m d st u th w6 w7 <> Settings.Settings0).
Proof.
  split.
  - intros s. split.
    + intros (m & d & st & u & th & w6 & w7 & <-). reflexivity.
    + intros H. destruct s as [m d st u th w6 w7]. cbn in H. subst w7.
      exists m, d, st, u, th, w6, 0. reflexivity.
  - intros m d st u th w6 w7 H.
    apply (f_equal (fun s => Settings._windowSecondsForDesiredReduction s
                             - Settings._windowSecondsForDesiredCalcOnTooManyStarves s))
      in H.
    vm_compute in H. destruct w6; cbn in H; try discriminate;
      rewrite ?Z.pos_sub_diag in H; discriminate.
Qed.

Section SetterComposition.

Context {TS : TimingStats} {SK : StreamKind}.

(** X2. The three inline setters compose as independent assignments: a
    second call of the same setter overwrites the first, calls of different
    setters give the same stream in either order, and setting
    [_maxFramesOverDesired] to the value [getMaxFramesOverDesired] returns
    leaves the stream as it is. *)
Theorem inline_setters_compose :
  forall (s : InboundAudioStream) (v w : Z) (b c : bool),
    setMaxFramesOverDesired v (setMaxFramesOverDesired w s) = setMaxFramesOverDesired v s
    /\ setUseStDevForJitterCalc b (setUseStDevForJitterCalc c s)
       = setUseStDevForJitterCalc b s
    /\ setWindowStarveThreshold v (setWindowStarveThreshold w s)
       = setWindowStarveThreshold v s
    /\ setMaxFramesOverDesired v (setUseStDevForJitterCalc b s)
       = setUseStDevForJitterCalc b (setMaxFramesOverDesired v s)
    /\ setMaxFramesOverDesired v (setWindowStarveThreshold w s)
       = setWindowStarveThreshold w (setMaxFramesOverDesired v s)
    /\ setUseStDevForJitterCalc b (setWindowStarveThreshold w s)
       = setWindowStarveThreshold w (setUseStDevForJitterCalc b s)
    /\ setMaxFramesOverDesired (getMaxFramesOverDesired s) s = s.
Proof.
  intros s v w b c. destruct s. repeat split.
Qed.

End SetterComposition.

(** * Properties of PathUtils.cpp and the dialogs *)

(** ** QString *)

Section QStringProperties.

Import Ascii String Qt.

Lemma equal_true (a b : QString) : equal a b = true <-> a = b.
Proof.
  revert b. induction a as [ | x a IH]; intros [ | y b]; cbn;
    try (split; [discriminate | discriminate]); [tauto | ].
  rewrite andb_true_iff, N.eqb_eq, IH. split.
  - intros [-> ->]. reflexivity.
  - intros H. injection H as -> ->. auto.
Qed.

Lemma equal_false (a b : QString) : equal a b = false <-> a <> b.
Proof.
  rewrite <- equal_true. destruct (equal a b); split; congruence.
Qed.

Lemma equal_refl (a : QString) : equal a a = true.
Proof. apply equal_true. reflexivity. Qed.

Lemma endsWith_true (s suffix : QString) :
  endsWith s suffix = true <-> exists p, s = p ++ suffix.
Proof.
  unfold endsWith. rewrite andb_true_iff, Nat.leb_le, equal_true. split.
  - intros [_ H]. exists (firstn (List.length s - List.length suffix) s).
    transitivity (firstn (List.length s - List.length suffix) s
                  ++ skipn (List.length s - List.length suffix) s).
    + symmetry. apply firstn_skipn.
    + rewrite H. reflexivity.
  - intros [p ->]. rewrite length_app. split; [lia | ].
    replace (List.length p + List.length suffix - List.length suffix)%nat
      with (List.length p) by lia.
    rewrite skipn_app, skipn_all, Nat.sub_diag. reflexivity.
Qed.

Lemma left_is_prefix (n : Z) (s : QString) : exists rest, s = left n s ++ rest.
Proof.
  unfold left. destruct ((n <? 0) || (count s <=? n)).
  - exists []. symmetry. apply app_nil_r.
  - exists (skipn (Z.to_nat n) s). symmetry. apply firstn_skipn.
Qed.

Lemma left_app (a b : QString) : b <> [] -> left (count a) (a ++ b) = a.
Proof.
  intros Hb. unfold left, count. rewrite length_app.
  assert (0 < List.length b)%nat by (destruct b; [congruence | cbn; lia]).
  replace (Z.of_nat (List.length a) <? 0) with false by (symmetry; apply Z.ltb_ge; lia).
  replace (Z.of_nat (List.length a + List.length b) <=? Z.of_nat (List.length a))
    with false by (symmetry; apply Z.leb_gt; lia).
  cbn [orb]. rewrite Nat2Z.id, firstn_app, firstn_all, Nat.sub_diag.
  cbn. apply app_nil_r.
Qed.

Lemma left_negative (n : Z) (s : QString) : n < 0 -> left n s = s.
Proof.
  intros H. unfold left. replace (n <? 0) with true by (symmetry; apply Z.ltb_lt; lia).
  reflexivity.
Qed.

End QStringProperties.

(** ** fileNameWithoutExtension *)

Section FileNameProperties.

Import Ascii String Qt PathUtils.

Context {CM : CaseMapping}.

Lemma fileNameWithoutExtension_foreach_skips (fileName lowered : QString)
    (before rest : list QString) :
  (forall e, In e before -> endsWith lowered (toLower e) = false) ->
  fileNameWithoutExtension_foreach fileName lowered (before ++ rest) =
  fileNameWithoutExtension_foreach fileName lowered rest.
Proof.
  induction before as [ | e before IH]; intros H; cbn; [reflexivity | ].
  rewrite (H e) by (left; reflexivity).
  apply IH. intros e' He'. apply H. right. exact He'.
Qed.

(** X3. [fileNameWithoutExtension] cuts as many code units off the end of the
    file name as the matching extension has, and one more, whatever
    [toLower] does to the two strings: when the name is a stem, any one code
    unit [c] (a dot or not) and a tail [ext'] of the same length as the
    extension [ext], the lowered name ends with the lowered [ext], and it
    ends with no lowered extension listed before [ext], the result is the
    stem, in its own case.  The lengths are those before the lowering. *)
Theorem fileNameWithoutExtension_strips_extension :
  forall (stem : QString) (c : QChar) (ext' ext : QString) (before rest : list QString),
    List.length ext' = List.length ext ->
    endsWith (toLower (stem ++ c :: ext')) (toLower ext) = true ->
    (forall e, In e before ->
       endsWith (toLower (stem ++ c :: ext')) (toLower e) = false) ->
    fileNameWithoutExtension (stem ++ c :: ext') (before ++ ext :: rest) = stem.
Proof.
  intros stem c ext' ext before rest Hlen Hends Hbefore.
  unfold fileNameWithoutExtension.
  rewrite fileNameWithoutExtension_foreach_skips by exact Hbefore.
  cbn [fileNameWithoutExtension_foreach]. rewrite Hends.
  replace (count (stem ++ c :: ext') - count ext - 1) with (count stem).
  - apply left_app. discriminate.
  - unfold count. rewrite length_app. cbn [List.length]. lia.
Qed.

(** X4. The result of [fileNameWithoutExtension] is always a prefix of the
    file name given: the function only ever cuts characters off the end. *)
Theorem fileNameWithoutExtension_is_prefix :
  forall (fileName : QString) (possibleExtensions : list QString),
    exists rest,
      fileName = fileNameWithoutExtension fileName possibleExtensions ++ rest.
Proof.
  intros fileName exts. unfold fileNameWithoutExtension.
  induction exts as [ | e exts IH]; cbn.
  - exists []. symmetry. apply app_nil_r.
  - destruct (endsWith (toLower fileName) (toLower e)).
    + apply left_is_prefix.
    + exact IH.
Qed.

(** X5. When the file name ends, case ignored, with none of the extensions
    (in particular when the list is empty), [fileNameWithoutExtension]
    returns the file name as it is. *)
Theorem fileNameWithoutExtension_unchanged_without_match :
  forall (fileName : QString) (possibleExtensions : list QString),
    (forall e, In e possibleExtensions ->
       endsWith (toLower fileName) (toLower e) = false) ->
    fileNameWithoutExtension fileName possibleExtensions = fileName.
Proof.
  intros fileName exts H. unfold fileNameWithoutExtension.
  rewrite <- (app_nil_r exts).
  rewrite fileNameWithoutExtension_foreach_skips by exact H.
  reflexivity.
Qed.

(** X6. A file name that has no more code units than the first extension
    whose lowering ends its own lowering comes back whole, whatever
    [toLower] does to the two strings: the length asked of [left] is
    negative then, and [left] returns the entire string for a negative
    length.  A name that is nothing but the extension, in any case of its
    letters, is such a name. *)
Theorem fileNameWithoutExtension_keeps_bare_extension :
  forall (fileName ext : QString) (before rest : list QString),
    (List.length fileName <= List.length ext)%nat ->
    endsWith (toLower fileName) (toLower ext) = true ->
    (forall e, In e before -> endsWith (toLower fileName) (toLower e) = false) ->
    fileNameWithoutExtension fileName (before ++ ext :: rest) = fileName.
Proof.
  intros fileName ext before rest Hlen Hends Hbefore. unfold fileNameWithoutExtension.
  rewrite fileNameWithoutExtension_foreach_skips by exact Hbefore.
  cbn [fileNameWithoutExtension_foreach]. rewrite Hends.
  apply left_negative. unfold count. lia.
Qed.

End FileNameProperties.

Section FileNameWitnesses.

Import Ascii String Qt PathUtils.

Lemma fileNameWithoutExtension_strips_extension_witness :
  fileNameWithoutExtension (CM := latin1) (literal "Model_01.FBX")
    [literal "obj"; literal "fbx"]
  = literal "Model_01".
Proof.
  apply (fileNameWithoutExtension_strips_extension (CM := latin1)
           (literal "Model_01") 46%N (literal "FBX") (literal "fbx")
           [literal "obj"] []).
  - reflexivity.
  - reflexivity.
  - intros e [<- | []]. vm_compute. reflexivity.
Defined.

Lemma fileNameWithoutExtension_unchanged_without_match_witness :
  fileNameWithoutExtension (CM := latin1) (literal "notes.txt")
    [literal "obj"; literal "fbx"]
  = literal "notes.txt".
Proof.
  apply (fileNameWithoutExtension_unchanged_without_match (CM := latin1)
           (literal "notes.txt") [literal "obj"; literal "fbx"]).
  intros e [<- | [<- | []]]; vm_compute; reflexivity.
Defined.

Lemma fileNameWithoutExtension_keeps_bare_extension_witness :
  fileNameWithoutExtension (CM := latin1) (literal "FBX")
    [literal "obj"; literal "fbx"]
  = literal "FBX".
Proof.
  apply (fileNameWithoutExtension_keeps_bare_extension (CM := latin1)
           (literal "FBX") (literal "fbx") [literal "obj"] []).
  - vm_compute. lia.
  - reflexivity.
  - intros e [<- | []]. vm_compute. reflexivity.
Defined.

End FileNameWitnesses.

(** ** findMostRecentFileExtension *)

Section MostRecentProperties.

Import Ascii String Qt PathUtils.

Context {CM : CaseMapping}.

Variable files : FileSystem.
Variable sansExt : QString.

(** What the loop of [findMostRecentFileExtension] keeps: the name and the
    time it ends with are those it started with, or those of a candidate
    that exists and is newer; and no candidate that exists is newer than the
    time it ends with. *)
Lemma findMostRecentFileExtension_foreach_invariant :
  forall (possibleExtensions : list QString) (newestFileName : QString) (newestTime : Z),
    let r := findMostRecentFileExtension_foreach files sansExt possibleExtensions
               newestFileName newestTime in
    (r = (newestFileName, newestTime)
     \/ exists e, In e possibleExtensions
          /\ fst r = withExtension sansExt e
          /\ exists_ (files (fst r)) = true
          /\ lastModified (files (fst r)) = snd r
          /\ newestTime < snd r)
    /\ newestTime <= snd r
    /\ (forall e, In e possibleExtensions ->
          exists_ (files (withExtension sansExt e)) = true ->
          lastModified (files (withExtension sansExt e)) <= snd r).
Proof.
  induction possibleExtensions as [ | e exts IH]; intros name time; cbn zeta.
  - cbn. split; [left; reflexivity | ]. split; [lia | ]. intros e [].
  - cbn [findMostRecentFileExtension_foreach].
    destruct (exists_ (files (withExtension sansExt e))) eqn:Hex; cbn [andb].
    + destruct (time <? lastModified (files (withExtension sansExt e))) eqn:Hnew.
      * apply Z.ltb_lt in Hnew.
        destruct (IH (withExtension sansExt e)
                     (lastModified (files (withExtension sansExt e))))
          as (Hres & Hmono & Hmax).
        split; [ | split].
        -- right. destruct Hres as [Hres | (e' & Hin & Hname & Hex' & Htime & Hlt)].
           ++ exists e. rewrite Hres. cbn [fst snd].
              split; [left; reflexivity | ]. split; [reflexivity | ].
              split; [exact Hex | ]. split; [reflexivity | exact Hnew].
           ++ exists e'. split; [right; exact Hin | ]. split; [exact Hname | ].
              split; [exact Hex' | ]. split; [exact Htime | lia].
        -- lia.
        -- intros e' [<- | Hin] Hex'; [exact Hmono | apply Hmax; assumption].
      * apply Z.ltb_ge in Hnew.
        destruct (IH name time) as (Hres & Hmono & Hmax).
        split; [ | split].
        -- destruct Hres as [Hres | (e' & Hin & Hrest)]; [left; exact Hres | ].
           right. exists e'. split; [right; exact Hin | exact Hrest].
        -- exact Hmono.
        -- intros e' [<- | Hin] Hex'; [lia | apply Hmax; assumption].
    + destruct (IH name time) as (Hres & Hmono & Hmax).
      split; [ | split].
      * destruct Hres as [Hres | (e' & Hin & Hrest)]; [left; exact Hres | ].
        right. exists e'. split; [right; exact Hin | exact Hrest].
      * exact Hmono.
      * intros e' [<- | Hin] Hex'; [congruence | apply Hmax; assumption].
Qed.

(** The loop replaces the newest name only by a strictly newer one: the
    candidate it ends with is newer than every existing candidate listed
    before it. *)
Lemma findMostRecentFileExtension_foreach_first :
  forall (possibleExtensions : list QString) (newestFileName : QString) (newestTime : Z),
    let r := findMostRecentFileExtension_foreach files sansExt possibleExtensions
               newestFileName newestTime in
    r = (newestFileName, newestTime)
    \/ exists before e after,
         possibleExtensions = before ++ e :: after
         /\ r = (withExtension sansExt e, lastModified (files (withExtension sansExt e)))
         /\ newestTime < snd r
         /\ (forall e', In e' before ->
               exists_ (files (withExtension sansExt e')) = true ->
               lastModified (files (withExtension sansExt e')) < snd r).
Proof.
  induction possibleExtensions as [ | e0 exts IH]; intros name time; cbn zeta.
  - left. reflexivity.
  - cbn [findMostRecentFileExtension_foreach].
    destruct (exists_ (files (withExtension sansExt e0))) eqn:Hex; cbn [andb].
    + destruct (time <? lastModified (files (withExtension sansExt e0))) eqn:Hnew.
      * apply Z.ltb_lt in Hnew. right.
        destruct (IH (withExtension sansExt e0)
                     (lastModified (files (withExtension sansExt e0))))
          as [Hres | (before & e & after & Hexts & Hres & Hlt & Hfirst)].
        -- exists [], e0, exts. rewrite Hres. cbn [snd].
           split; [reflexivity | ]. split; [reflexivity | ]. split; [exact Hnew | ].
           intros e' [].
        -- exists (e0 :: before), e, after.
           split; [rewrite Hexts; reflexivity | ]. split; [exact Hres | ]. split; [lia | ].
           intros e' [<- | Hin] Hex'; [exact Hlt | apply Hfirst; assumption].
      * apply Z.ltb_ge in Hnew.
        destruct (IH name time)
          as [Hres | (before & e & after & Hexts & Hres & Hlt & Hfirst)];
          [left; exact Hres | right].
        exists (e0 :: before), e, after.
        split; [rewrite Hexts; reflexivity | ]. split; [exact Hres | ]. split; [exact Hlt | ].
        intros e' [<- | Hin] Hex'; [lia | apply Hfirst; assumption].
    + destruct (IH name time)
        as [Hres | (before & e & after & Hexts & Hres & Hlt & Hfirst)];
        [left; exact Hres | right].
      exists (e0 :: before), e, after.
      split; [rewrite Hexts; reflexivity | ]. split; [exact Hres | ]. split; [exact Hlt | ].
      intros e' [<- | Hin] Hex'; [congruence | apply Hfirst; assumption].
Qed.

Lemma findMostRecentFileExtension_foreach_none :
  forall (possibleExtensions : list QString) (newestFileName : QString) (newestTime : Z),
    (forall e, In e possibleExtensions ->
       exists_ (files (withExtension sansExt e)) = false
       \/ lastModified (files (withExtension sansExt e)) <= newestTime) ->
    findMostRecentFileExtension_foreach files sansExt possibleExtensions
      newestFileName newestTime = (newestFileName, newestTime).
Proof.
  induction possibleExtensions as [ | e exts IH]; intros name time H; cbn; [reflexivity | ].
  assert (Hno : exists_ (files (withExtension sansExt e))
                && (time <? lastModified (files (withExtension sansExt e))) = false).
  { destruct (H e (or_introl eq_refl)) as [-> | Hold]; [reflexivity | ].
    apply andb_false_iff. right. apply Z.ltb_ge. exact Hold. }
  rewrite Hno. apply IH. intros e' He'. apply H. right. exact He'.
Qed.

End MostRecentProperties.

Section MostRecentTheorems.

Import Ascii String Qt PathUtils.

Context {CM : CaseMapping}.

(** X7. When some candidate [sansExt.ext] exists and was modified after the
    epoch, [findMostRecentFileExtension] returns a candidate built from one
    of the extensions, that exists, and that no existing candidate is newer
    than. *)
Theorem findMostRecentFileExtension_picks_newest_existing :
  forall (files : FileSystem) (originalFileName : QString)
         (possibleExtensions : list QString) (ext : QString),
    let sansExt := fileNameWithoutExtension originalFileName possibleExtensions in
    let result := findMostRecentFileExtension files originalFileName possibleExtensions in
    In ext possibleExtensions ->
    exists_ (files (withExtension sansExt ext)) = true ->
    0 < lastModified (files (withExtension sansExt ext)) ->
    (exists e, In e possibleExtensions /\ result = withExtension sansExt e)
    /\ exists_ (files result) = true
    /\ (forall e, In e possibleExtensions ->
          exists_ (files (withExtension sansExt e)) = true ->
          lastModified (files (withExtension sansExt e)) <= lastModified (files result)).
Proof.
  intros files original exts ext sansExt result Hin Hex Hnew.
  subst result. unfold findMostRecentFileExtension. fold sansExt.
  destruct (findMostRecentFileExtension_foreach_invariant files sansExt exts original 0)
    as (Hres & _ & Hmax).
  cbn zeta in Hres, Hmax.
  pose proof (Hmax ext Hin Hex) as Hle.
  destruct Hres as [Hres | (e & He & Hname & Hex' & Htime & _)].
  - rewrite Hres in Hle. cbn in Hle. lia.
  - split; [exists e; split; assumption | ]. split; [exact Hex' | ].
    intros e' He' Hex''. rewrite Htime. apply Hmax; assumption.
Qed.

(** X8. When every candidate [sansExt.ext] is missing or was last modified at
    the epoch or before it, [findMostRecentFileExtension] returns the
    original file name, extension included, whether that file exists or
    not. *)
Theorem findMostRecentFileExtension_falls_back_to_original :
  forall (files : FileSystem) (originalFileName : QString)
         (possibleExtensions : list QString),
    let sansExt := fileNameWithoutExtension originalFileName possibleExtensions in
    (forall e, In e possibleExtensions ->
       exists_ (files (withExtension sansExt e)) = false
       \/ lastModified (files (withExtension sansExt e)) <= 0) ->
    findMostRecentFileExtension files originalFileName possibleExtensions
    = originalFileName.
Proof.
  intros files original exts sansExt H.
  unfold findMostRecentFileExtension. fold sansExt.
  rewrite findMostRecentFileExtension_foreach_none by exact H.
  reflexivity.
Qed.

(** X9. Among candidates that are equally new the one listed first wins:
    when some candidate exists and was modified after the epoch, the result
    is the candidate of an extension of the list such that every existing
    candidate listed before it is strictly older. *)
Theorem findMostRecentFileExtension_first_of_the_newest :
  forall (files : FileSystem) (originalFileName : QString)
         (possibleExtensions : list QString) (ext : QString),
    let sansExt := fileNameWithoutExtension originalFileName possibleExtensions in
    let result := findMostRecentFileExtension files originalFileName possibleExtensions in
    In ext possibleExtensions ->
    exists_ (files (withExtension sansExt ext)) = true ->
    0 < lastModified (files (withExtension sansExt ext)) ->
    exists before e after,
      possibleExtensions = before ++ e :: after
      /\ result = withExtension sansExt e
      /\ (forall e', In e' before ->
            exists_ (files (withExtension sansExt e')) = true ->
            lastModified (files (withExtension sansExt e')) < lastModified (files result)).
Proof.
  intros files original exts ext sansExt result Hin Hex Hnew.
  subst result. unfold findMostRecentFileExtension. fold sansExt.
  destruct (findMostRecentFileExtension_foreach_invariant files sansExt exts original 0)
    as (_ & _ & Hmax).
  cbn zeta in Hmax. pose proof (Hmax ext Hin Hex) as Hle.
  destruct (findMostRecentFileExtension_foreach_first files sansExt exts original 0)
    as [Hres | (before & e & after & Hexts & Hres & Hlt & Hfirst)].
  - rewrite Hres in Hle. cbn in Hle. lia.
  - exists before, e, after. rewrite Hres in *. cbn [fst snd] in *.
    split; [exact Hexts | ]. split; [reflexivity | exact Hfirst].
Qed.

End MostRecentTheorems.

Section MostRecentWitnesses.

Import Ascii String Qt PathUtils.

Lemma findMostRecentFileExtension_first_of_the_newest_witness :
  findMostRecentFileExtension (CM := latin1) twinModels (literal "model.fbx")
    [literal "obj"; literal "fbx"] = literal "model.obj"
  /\ (exists before e after,
        [literal "obj"; literal "fbx"] = before ++ e :: after
        /\ findMostRecentFileExtension (CM := latin1) twinModels (literal "model.fbx")
             [literal "obj"; literal "fbx"]
           = withExtension
               (fileNameWithoutExtension (CM := latin1) (literal "model.fbx")
                  [literal "obj"; literal "fbx"]) e
        /\ (forall e', In e' before ->
              exists_ (twinModels
                         (withExtension
                            (fileNameWithoutExtension (CM := latin1) (literal "model.fbx")
                               [literal "obj"; literal "fbx"]) e')) = true ->
              lastModified
                (twinModels
                   (withExtension
                      (fileNameWithoutExtension (CM := latin1) (literal "model.fbx")
                         [literal "obj"; literal "fbx"]) e'))
              < lastModified
                  (twinModels
                     (findMostRecentFileExtension (CM := latin1) twinModels (literal "model.fbx")
                        [literal "obj"; literal "fbx"])))).
Proof.
  split; [reflexivity | ].
  apply (findMostRecentFileExtension_first_of_the_newest (CM := latin1) twinModels
           (literal "model.fbx") [literal "obj"; literal "fbx"] (literal "fbx")).
  - right. left. reflexivity.
  - reflexivity.
  - reflexivity.
Defined.

Lemma findMostRecentFileExtension_picks_newest_existing_witness :
  findMostRecentFileExtension (CM := latin1) twoModels (literal "model.obj")
    [literal "obj"; literal "fbx"] = literal "model.fbx"
  /\ (exists e, In e [literal "obj"; literal "fbx"]
        /\ findMostRecentFileExtension (CM := latin1) twoModels (literal "model.obj")
             [literal "obj"; literal "fbx"]
           = withExtension
               (fileNameWithoutExtension (CM := latin1) (literal "model.obj")
                  [literal "obj"; literal "fbx"]) e).
Proof.
  split; [reflexivity | ].
  apply (findMostRecentFileExtension_picks_newest_existing (CM := latin1) twoModels
           (literal "model.obj") [literal "obj"; literal "fbx"] (literal "obj")).
  - left. reflexivity.
  - reflexivity.
  - reflexivity.
Defined.

Lemma findMostRecentFileExtension_falls_back_to_original_witness :
  findMostRecentFileExtension (CM := latin1) twoModels (literal "avatar.fst")
    [literal "fst"; literal "json"] = literal "avatar.fst".
Proof.
  apply (findMostRecentFileExtension_falls_back_to_original (CM := latin1) twoModels
           (literal "avatar.fst") [literal "fst"; literal "json"]).
  intros e [<- | [<- | []]]; left; reflexivity.
Defined.

End MostRecentWitnesses.

(** ** defaultScriptsLocation *)

Section DefaultScriptsProperties.

Import Ascii String Qt PathUtils.

Variable platformScriptsPath : QString.
Variable QUrl : Type.
Variable canonicalUrl : QString -> QUrl.

Lemma lastNonEmpty_is_not_empty (calls : list QString) (p : QString) :
  lastNonEmpty calls = Some p -> isEmpty p = false.
Proof.
  induction calls as [ | q calls IH]; cbn; [discriminate | ].
  destruct (lastNonEmpty calls) as [r | ].
  - intros H. injection H as <-. apply IH. reflexivity.
  - destruct (isEmpty q) eqn:Hq; [discriminate | ].
    intros H. injection H as <-. exact Hq.
Qed.

Lemma lastNonEmpty_snoc (calls : list QString) (p : QString) :
  lastNonEmpty (calls ++ [p]) = if isEmpty p then lastNonEmpty calls else Some p.
Proof.
  induction calls as [ | q calls IH]; cbn.
  - destruct (isEmpty p); reflexivity.
  - rewrite IH. destruct (isEmpty p); reflexivity.
Qed.

Lemma defaultScriptsLocation_calls_override (calls : list QString) (overridden : QString) :
  snd (defaultScriptsLocation_calls platformScriptsPath QUrl canonicalUrl calls overridden)
  = match lastNonEmpty calls with Some p => p | None => overridden end.
Proof.
  revert overridden. induction calls as [ | p calls IH]; intros overridden; cbn;
    [reflexivity | ].
  specialize (IH (if negb (isEmpty p) then p else overridden)).
  destruct (defaultScriptsLocation_calls platformScriptsPath QUrl canonicalUrl calls
              (if negb (isEmpty p) then p else overridden)) as [urls final].
  cbn in IH |- *. rewrite IH.
  destruct (lastNonEmpty calls); [reflexivity | ].
  destruct (isEmpty p); reflexivity.
Qed.

(** X10. The override of [defaultScriptsLocation] sticks: after any calls, a
    call returns the URL of the last argument that was not empty among all
    the arguments so far, its own included, and the platform's path only
    when every argument so far was empty.  An empty argument never clears the
    override. *)
Theorem defaultScriptsLocation_override_sticks :
  forall (calls : list QString) (newDefaultPath : QString),
    fst (defaultScriptsLocation platformScriptsPath QUrl canonicalUrl newDefaultPath
           (snd (defaultScriptsLocation_calls platformScriptsPath QUrl canonicalUrl
                   calls initialOverride)))
    = canonicalUrl
        match lastNonEmpty (calls ++ [newDefaultPath]) with
        | Some p => p
        | None => platformScriptsPath
        end.
Proof.
  intros calls p.
  rewrite defaultScriptsLocation_calls_override, lastNonEmpty_snoc.
  unfold defaultScriptsLocation, initialOverride. cbn [fst].
  destruct (isEmpty p) eqn:Hp; cbn [negb]; [ | rewrite Hp; reflexivity].
  destruct (lastNonEmpty calls) as [q | ] eqn:Hq.
  - rewrite (lastNonEmpty_is_not_empty calls q Hq). reflexivity.
  - reflexivity.
Qed.

End DefaultScriptsProperties.

(** ** LoginDialog *)

Section LoginDialogProperties.

Import Ascii String Qt LoginDialog.

Lemma statusChanges_app (a b : list Effect) :
  statusChanges (a ++ b) = (statusChanges a + statusChanges b)%nat.
Proof. unfold statusChanges. rewrite filter_app, length_app. reflexivity. Qed.





(** X12. A call repeated at once changes nothing more: the second of two
    equal calls in a row leaves the dialog as the first left it and emits no
    [statusTextChanged], so a repeated failure or a repeated login attempt
    does not notify the QML side again. *)
Theorem repeated_call_emits_no_signal :
  forall (c : Call) (d : LoginDialog),
    fst (call c (fst (call c d))) = fst (call c d)
    /\ statusChanges (snd (call c (fst (call c d)))) = 0%nat.
Proof.
  assert (Hset : forall a d,
             fst (setStatusText a (fst (setStatusText a d))) = fst (setStatusText a d)
             /\ statusChanges (snd (setStatusText a (fst (setStatusText a d)))) = 0%nat).
  { intros a d. unfold setStatusText.
    destruct (equal a (_statusText d)) eqn:H; cbn [negb fst snd _statusText].
    - rewrite H. cbn. auto.
    - rewrite equal_refl. cbn. auto. }
  intros c d. destruct c as [a | username password | url | authURL | ]; cbn [call].
  - apply Hset.
  - unfold login.
    specialize (Hset (literal "Authenticating...") d).
    destruct (setStatusText (literal "Authenticating...") d) as [d1 e1].
    cbn [fst snd] in *.
    destruct (setStatusText (literal "Authenticating...") d1) as [d2 e2].
    cbn [fst snd] in *. destruct Hset as (Hd & He).
    split; [exact Hd | ]. rewrite !statusChanges_app, He. reflexivity.
  - cbn. auto.
  - cbn. auto.
  - unfold handleLoginFailed. apply Hset.
Qed.

Lemma tokenRequests_app (a b : list Effect) :
  tokenRequests (a ++ b) = tokenRequests a ++ tokenRequests b.
Proof. unfold tokenRequests. apply flat_map_app. Qed.

Lemma setStatusText_requests_nothing (a : QString) (d : LoginDialog) :
  tokenRequests (snd (setStatusText a d)) = [].
Proof. unfold setStatusText. destruct (negb (equal a (_statusText d))); reflexivity. Qed.

(** X13. Over any sequence of calls on the dialog, the access tokens
    requested of the account manager are those of the [login] calls, one for
    each, in order and with the user name and the password as given: [login]
    checks neither (empty ones are sent too), the state of the dialog plays
    no part, and no other member function requests a token. *)
Theorem login_requests_one_token_each :
  forall (cs : list Call) (d : LoginDialog),
    tokenRequests (snd (calls cs d)) = loginCredentials cs.
Proof.
  induction cs as [ | c cs IH]; intros d; cbn [calls]; [reflexivity | ].
  assert (Hc : tokenRequests (snd (call c d)) = loginCredentials [c]).
  { destruct c as [a | username password | url | authURL | ]; cbn [call].
    - apply setStatusText_requests_nothing.
    - unfold login.
      pose proof (setStatusText_requests_nothing (literal "Authenticating...") d) as H.
      destruct (setStatusText (literal "Authenticating...") d) as [d1 e1].
      cbn [fst snd] in *. rewrite !tokenRequests_app, H. reflexivity.
    - reflexivity.
    - reflexivity.
    - apply setStatusText_requests_nothing. }
  destruct (call c d) as [d1 e1]. specialize (IH d1).
  destruct (calls cs d1) as [d2 e2]. cbn [fst snd] in *.
  rewrite tokenRequests_app, Hc, IH.
  change (c :: cs) with ([c] ++ cs). unfold loginCredentials.
  symmetry. apply flat_map_app.
Qed.

Lemma toggleAction_calls_app (states1 states2 : list AccountManager)
    (loginAction : option QAction) :
  toggleAction_calls (states1 ++ states2) loginAction
  = toggleAction_calls states2 (toggleAction_calls states1 loginAction).
Proof.
  revert loginAction. induction states1 as [ | m states1 IH]; intros loginAction; cbn;
    [reflexivity | apply IH].
Qed.

Lemma toggleAction_calls_some (states : list AccountManager) (a : QAction) :
  exists a', toggleAction_calls states (Some a) = Some a'.
Proof.
  revert a. induction states as [ | m states IH]; intros a; cbn.
  - exists a. reflexivity.
  - destruct (isLoggedIn m); apply IH.
Qed.

Lemma toggleAction_calls_none (states : list AccountManager) :
  toggleAction_calls states None = None.
Proof. induction states as [ | m states IH]; cbn; [reflexivity | exact IH]. Qed.

(** X14. Connections of the login action never pile up: after any number of
    [toggleAction] calls, whatever the action's text and connections were
    before and whatever the account manager's state was at the earlier
    calls, the action has the text and the single [triggered] connection
    that the account manager's state at the last call selects ([logout] when
    logged in, [show] when not).  With no login action in the menu every
    call fails. *)
Theorem toggleAction_leaves_one_connection :
  forall (states : list AccountManager) (last : AccountManager) (a : QAction),
    toggleAction_calls (states ++ [last]) (Some a)
    = Some (if isLoggedIn last
            then BuildAction (literal "Logout " ++ getUsername last)
                   [(triggered, AccountManager_logout)]
            else BuildAction (literal "Login") [(triggered, LoginDialog_show)])
    /\ toggleAction_calls (states ++ [last]) None = None.
Proof.
  intros states last a. rewrite !toggleAction_calls_app. split.
  - destruct (toggleAction_calls_some states a) as [a' ->].
    cbn. destruct (isLoggedIn last); reflexivity.
  - rewrite toggleAction_calls_none. reflexivity.
Qed.

End LoginDialogProperties.

(** ** AddressBarDialog *)

Section AddressBarDialogProperties.

Import Ascii String Qt AddressBarDialog.

Lemma lookupStrings_app (a b : list Effect) :
  lookupStrings (a ++ b) = lookupStrings a ++ lookupStrings b.
Proof. unfold lookupStrings. apply flat_map_app. Qed.

Lemma messageBoxes_app (a b : list Effect) :
  messageBoxes (a ++ b) = messageBoxes a ++ messageBoxes b.
Proof. unfold messageBoxes. apply flat_map_app. Qed.

(** X15. Over any sequence of [loadAddress] calls and address-manager
    signals, the strings handed to [handleLookupString] are the addresses
    given to [loadAddress] that are not empty, in order: an empty address is
    logged and dropped, every other one is looked up as it is, and no signal
    starts a lookup. *)
Theorem loadAddress_looks_up_non_empty_addresses :
  forall (events : list Event) (d : AddressBarDialog),
    lookupStrings (snd (handleAll events d)) = nonEmptyAddresses events.
Proof.
  induction events as [ | e events IH]; intros d; cbn [handleAll]; [reflexivity | ].
  assert (He : lookupStrings (snd (handle e d)) = nonEmptyAddresses [e]).
  { destruct e as [address | [ | | ]]; cbn; [ | reflexivity ..].
    destruct (isEmpty address); reflexivity. }
  destruct (handle e d) as [d1 e1]. specialize (IH d1).
  destruct (handleAll events d1) as [d2 e2]. cbn [fst snd] in *.
  rewrite lookupStrings_app, He, IH.
  change (e :: events) with ([e] ++ events). unfold nonEmptyAddresses.
  symmetry. apply flat_map_app.
Qed.

(** X16. Over any sequence of [loadAddress] calls and address-manager
    signals, one message box is shown for each offline or not-found signal
    and none otherwise; and the parent item is enabled at the end exactly
    when it was enabled at the start and no [lookupResultsFinished] arrived:
    nothing in the dialog enables it again. *)
Theorem signals_show_boxes_and_disable_parent :
  forall (events : list Event) (d : AddressBarDialog),
    List.length (messageBoxes (snd (handleAll events d)))
    = List.length (filter isLookupFailure events)
    /\ parentEnabled (fst (handleAll events d))
       = parentEnabled d && negb (existsb isLookupFinished events).
Proof.
  induction events as [ | e events IH]; intros d; cbn [handleAll].
  - cbn. rewrite andb_true_r. auto.
  - assert (He : List.length (messageBoxes (snd (handle e d)))
                 = List.length (filter isLookupFailure [e])
                 /\ parentEnabled (fst (handle e d))
                    = parentEnabled d && negb (isLookupFinished e)).
    { destruct e as [address | [ | | ]]; cbn; rewrite ?andb_true_r, ?andb_false_r;
        auto.
      destruct (isEmpty address); auto. }
    destruct (handle e d) as [d1 e1]. specialize (IH d1).
    destruct (handleAll events d1) as [d2 e2]. cbn [fst snd] in *.
    destruct He as (Hbox & Hpar). destruct IH as (IHbox & IHpar). split.
    + rewrite messageBoxes_app, length_app, Hbox, IHbox.
      cbn [filter]. destruct (isLookupFailure e); reflexivity.
    + rewrite IHpar, Hpar. cbn [existsb]. rewrite negb_orb. apply eq_sym, andb_assoc.
Qed.

End AddressBarDialogProperties.
